(** * APIServiceRegistrationController

    A shallow embedding of
    [k8s.io/kube-aggregator/pkg/apiserver/apiservice_controller.go]: the
    controller that keeps the aggregator's handler manager in step with the
    APIService registrations and the services behind them.

    Go packages become modules, structs become records, interfaces become
    type classes (the mutable collaborators) or records of functions (the
    read-only listers).  Methods of the controller run in a small monad that
    threads the state of the two mutable collaborators, writes down every
    call made to them, and carries panics. *)

From stdpp Require Import base strings list gmap.

Set Default Proof Using "Type".

(** ** Errors *)

(** Modelled from the spec: Go's [error] values and [apierrors.IsNotFound]
    of apimachinery, whose source is not at hand.  The specification
    separates a lookup that reports "not found" from a lookup that "fails
    for any other reason"; every error carries its message. *)
Inductive error :=
| ErrNotFound (message : string)
| ErrOther (message : string).

(** A Go [(T, error)] result: the value when [err == nil], the error
    otherwise. *)
Definition errOf {A : Type} (r : A + error) : option error :=
  match r with
  | inl _ => None
  | inr err => Some err
  end.

Module apierrors.
(** [IsNotFound(nil)] is false. *)
Definition IsNotFound (err : option error) : bool :=
  match err with
  | Some (ErrNotFound _) => true
  | _ => false
  end.
End apierrors.

(** ** Watched objects *)

Module apiregistration.

Module ServiceReference.
Record t := { Namespace : string; Name : string }.
End ServiceReference.

(** [Service] is a pointer in the source: [None] is [nil]. *)
Record APIServiceSpec := { Service : option ServiceReference.t }.

Inductive APIServiceConditionType := Available.

(** Modelled from the spec: the status of a registration and
    [IsAPIServiceConditionTrue] of package apiregistration, whose source is
    not at hand.  The specification gives a registration "an Available
    condition (boolean-valued, derived externally, read-only to this
    core)". *)
Record APIServiceStatus := { ConditionAvailable : bool }.

(** Modelled from the spec: the struct [APIService] of package
    apiregistration, whose source is not at hand.  A registration is
    "identified by a unique name (used as the queue key)" and carries "an
    optional reference {serviceName, serviceNamespace} to a backing
    service". *)
Record APIService := {
  Name : string;
  Spec : APIServiceSpec;
  Status : APIServiceStatus
}.

(** Modelled from the spec: [IsAPIServiceConditionTrue] reads the
    boolean-valued condition of the registration. *)
Definition IsAPIServiceConditionTrue
    (apiService : APIService) (conditionType : APIServiceConditionType) : bool :=
  match conditionType with
  | Available => ConditionAvailable (Status apiService)
  end.

End apiregistration.

Module api.

(** [type ServiceType string]. *)
Definition ServiceType := string.

(** Modelled from the spec: the three constants of pkg/api, whose source
    is not at hand; they are the specification's cluster-internal, node-port
    and load-balancer service types. *)
Definition ServiceTypeClusterIP : ServiceType := "ClusterIP".
Definition ServiceTypeNodePort : ServiceType := "NodePort".
Definition ServiceTypeLoadBalancer : ServiceType := "LoadBalancer".

(** [Type_] is the source's [Type]. *)
Record ServiceSpec := { Type_ : ServiceType; ClusterIP : string }.

Record Service := {
  Namespace : string;
  Name : string;
  Spec : ServiceSpec
}.

End api.

Import apiregistration.

(** ** Listers: read-only views of the two caches *)

Module listers.
(** [Get(name)] and [List(labels.Everything())]. *)
Record APIServiceLister := {
  Get : string -> APIService + error;
  List : list APIService * option error
}.
End listers.

Module internallisters.
Record ServiceNamespaceLister := {
  Get : string -> api.Service + error
}.
(** [Services(namespace)]. *)
Record ServiceLister := {
  Services : string -> ServiceNamespaceLister
}.
End internallisters.

(** ** The mutable collaborators *)

(** [type APIHandlerManager interface], over the state [M] of the
    implementation. *)
Class APIHandlerManager (M : Type) := {
  AddAPIService : APIService -> string -> M -> M;
  RemoveAPIService : string -> M -> M
}.

Module workqueue.
(** [workqueue.RateLimitingInterface], as far as the controller uses it,
    over the state [Q] of the implementation.  Items are the keys the
    controller adds, which are strings.  [Get] returns the item and the
    shutdown flag. *)
Class RateLimitingInterface (Q : Type) := {
  Add : string -> Q -> Q;
  Get : Q -> (string * bool) * Q;
  Done : string -> Q -> Q;
  Forget : string -> Q -> Q;
  AddRateLimited : string -> Q -> Q;
  ShutDown : Q -> Q
}.
End workqueue.

(** ** Values of type [interface{}] handed to the event handlers *)

Module cache.
Inductive Object :=
| APIServicePtr (apiService : APIService)      (* *apiregistration.APIService *)
| ServicePtr (service : api.Service)           (* *api.Service *)
| DeletedFinalStateUnknown (Key : string) (Obj : Object)
| Other (dynamicType : string).                (* a value of any other type *)

(** The comma-ok type assertions of the source: [obj.(T)] gives the value
    and [ok]. *)
Definition asAPIService (obj : Object) : option APIService :=
  match obj with
  | APIServicePtr apiService => Some apiService
  | _ => None
  end.

Definition asService (obj : Object) : option api.Service :=
  match obj with
  | ServicePtr service => Some service
  | _ => None
  end.

(** The assertion to [cache.DeletedFinalStateUnknown] gives the tombstone;
    this is its [Obj] field. *)
Definition asDeletedFinalStateUnknown (obj : Object) : option Object :=
  match obj with
  | DeletedFinalStateUnknown _ Obj => Some Obj
  | _ => None
  end.

(** Modelled from the spec: [DeletionHandlingMetaNamespaceKeyFunc] of
    client-go, whose source is not at hand.  The controller applies it to
    registrations only, and the queue key is "the Registration's unique
    name". *)
Definition DeletionHandlingMetaNamespaceKeyFunc (obj : APIService)
    : string * option error :=
  (Name obj, None).
End cache.

(** ** Calls made to the outside, in program order *)

Inductive Event :=
| CallAddAPIService (apiService : APIService) (destinationHost : string)
| CallRemoveAPIService (apiServiceName : string)
| CallQueueAdd (key : string)
| CallQueueGet (key : string) (quit : bool)
| CallQueueDone (key : string)
| CallQueueForget (key : string)
| CallQueueAddRateLimited (key : string)
| CallSyncFn (key : string)                       (* c.syncFn(key), noted by the caller *)
| CallHandleError (key : string) (err : error)   (* utilruntime.HandleError(fmt.Errorf("%v failed with : %v", key, err)) *)
| GlogErrorf (format : string)                   (* glog.Errorf(format, ...) *)
| GlogV4Infof (format : string) (arg : string).  (* glog.V(4).Infof(format, arg) *)

(** ** The controller monad *)

Inductive Outcome (A : Type) :=
| Returned (a : A)
| Panicked (reason : string).
Arguments Returned {A} a.
Arguments Panicked {A} reason.

Section Controller.

Context {M Q : Type}.
Context `{!APIHandlerManager M, !workqueue.RateLimitingInterface Q}.

(** The objects behind [c.apiHandlerManager] and [c.queue]. *)
Record World := {
  apiHandlerManager : M;
  queue : Q
}.

Definition Ctl (A : Type) : Type := World -> Outcome A * World * list Event.

Definition ret {A : Type} (a : A) : Ctl A := fun w => (Returned a, w, []).

Definition bind {A B : Type} (m : Ctl A) (k : A -> Ctl B) : Ctl B :=
  fun w =>
    match m w with
    | (Returned a, w1, t1) =>
        match k a w1 with
        | (r, w2, t2) => (r, w2, t1 ++ t2)
        end
    | (Panicked reason, w1, t1) => (Panicked reason, w1, t1)
    end.

Definition panic {A : Type} (reason : string) : Ctl A :=
  fun w => (Panicked reason, w, []).

(** [defer d] before [body]: [d] runs when [body] is left, by return or
    by panic. *)
Definition defer {A : Type} (d : Ctl unit) (body : Ctl A) : Ctl A :=
  fun w =>
    match body w with
    | (r, w1, t1) =>
        match d w1 with
        | (Returned _, w2, t2) => (r, w2, t1 ++ t2)
        | (Panicked reason, w2, t2) => (Panicked reason, w2, t1 ++ t2)
        end
    end.

Definition emit (e : Event) : Ctl unit := fun w => (Returned tt, w, [e]).

(** The world after a call that takes the handler manager, or the queue,
    from one state to the next. *)
Definition withHandlers (f : M -> M) (w : World) : World :=
  {| apiHandlerManager := f (apiHandlerManager w); queue := queue w |}.
Definition withQueue (f : Q -> Q) (w : World) : World :=
  {| apiHandlerManager := apiHandlerManager w; queue := f (queue w) |}.

Definition onHandlers (f : M -> M) : Ctl unit :=
  fun w => (Returned tt, withHandlers f w, []).

Definition onQueue (f : Q -> Q) : Ctl unit :=
  fun w => (Returned tt, withQueue f w, []).

#[export] Instance Ctl_ret : MRet Ctl := @ret.
#[export] Instance Ctl_bind : MBind Ctl := fun A B k m => bind m k.

(** [for _, x := range l { body(x) }]. *)
Fixpoint forRange {A : Type} (l : list A) (body : A -> Ctl unit) : Ctl unit :=
  match l with
  | [] => ret tt
  | x :: l' => body x ;; forRange l' body
  end.

(** *** Calls to the collaborators *)

Definition callAddAPIService (apiService : APIService) (destinationHost : string)
    : Ctl unit :=
  onHandlers (AddAPIService apiService destinationHost) ;;
  emit (CallAddAPIService apiService destinationHost).

Definition callRemoveAPIService (apiServiceName : string) : Ctl unit :=
  onHandlers (RemoveAPIService apiServiceName) ;;
  emit (CallRemoveAPIService apiServiceName).

Definition queueAdd (key : string) : Ctl unit :=
  onQueue (workqueue.Add key) ;; emit (CallQueueAdd key).

Definition queueGet : Ctl (string * bool) :=
  fun w =>
    let '(key, quit, q) := workqueue.Get (queue w) in
    (Returned (key, quit), withQueue (fun _ => q) w, [CallQueueGet key quit]).

Definition queueDone (key : string) : Ctl unit :=
  onQueue (workqueue.Done key) ;; emit (CallQueueDone key).

Definition queueForget (key : string) : Ctl unit :=
  onQueue (workqueue.Forget key) ;; emit (CallQueueForget key).

Definition queueAddRateLimited (key : string) : Ctl unit :=
  onQueue (workqueue.AddRateLimited key) ;; emit (CallQueueAddRateLimited key).

(** *** The controller *)

(** The fields of the struct that its methods read.  The handler manager
    and the queue are in the [World]; the two [InformerSynced] fields are
    read by [Run] only. *)
Record APIServiceRegistrationController := {
  apiServiceLister : listers.APIServiceLister;
  serviceLister : internallisters.ServiceLister;
  syncFn : string -> Ctl (option error)
}.

Definition getDestinationHost
    (c : APIServiceRegistrationController) (apiService : APIService) : string :=
  match Service (Spec apiService) with
  | None => ""
  | Some ref =>
      let destinationHost :=
        ServiceReference.Name ref +:+ "." +:+ ServiceReference.Namespace ref +:+ ".svc" in
      match internallisters.Get
              (internallisters.Services (serviceLister c) (ServiceReference.Namespace ref))
              (ServiceReference.Name ref) with
      | inr err => destinationHost
      | inl service =>
          if bool_decide (api.Type_ (api.Spec service) = api.ServiceTypeClusterIP)
             || bool_decide (api.Type_ (api.Spec service) = api.ServiceTypeNodePort)
             || bool_decide (api.Type_ (api.Spec service) = api.ServiceTypeLoadBalancer)
          then api.ClusterIP (api.Spec service)
          else destinationHost
      end
  end.

Definition sync (c : APIServiceRegistrationController) (key : string)
    : Ctl (option error) :=
  let r := listers.Get (apiServiceLister c) key in
  if apierrors.IsNotFound (errOf r) then
    callRemoveAPIService key ;;
    ret None
  else
    match r with
    | inr err => ret (Some err)
    | inl apiService =>
        if negb (IsAPIServiceConditionTrue apiService Available) then
          callRemoveAPIService key ;;
          ret None
        else
          callAddAPIService apiService (getDestinationHost c apiService) ;;
          ret None
    end.

(** The constructor, without the registration of the event handlers with
    the informers.  Its last step is [c.syncFn = c.sync]; [sync] reads the
    two listers of [c] and not its [syncFn]. *)
Definition NewAPIServiceRegistrationController
    (apiServiceLister : listers.APIServiceLister)
    (serviceLister : internallisters.ServiceLister)
    : APIServiceRegistrationController :=
  let c := {| apiServiceLister := apiServiceLister;
              serviceLister := serviceLister;
              syncFn := fun _ => ret None |} in
  {| apiServiceLister := apiServiceLister;
     serviceLister := serviceLister;
     syncFn := sync c |}.

Definition processNextWorkItem (c : APIServiceRegistrationController) : Ctl bool :=
  '(key, quit) ← queueGet;
  if (quit : bool) then ret false
  else
    defer (queueDone key) (
      err ← (emit (CallSyncFn key) ;; syncFn c key);
      match err with
      | None =>
          queueForget key ;;
          ret true
      | Some e =>
          emit (CallHandleError key e) ;;
          queueAddRateLimited key ;;
          ret true
      end).

Definition enqueue (obj : APIService) : Ctl unit :=
  match cache.DeletionHandlingMetaNamespaceKeyFunc obj with
  | (key, Some err) => emit (GlogErrorf "Couldn't get key for object %#v: %v")
  | (key, None) => queueAdd key
  end.

(** Without the comma-ok form a failed assertion panics. *)
Definition addAPIService (obj : cache.Object) : Ctl unit :=
  match cache.asAPIService obj with
  | None => panic "interface conversion: interface {} is not *apiregistration.APIService"
  | Some castObj =>
      emit (GlogV4Infof "Adding %s" (Name castObj)) ;;
      enqueue castObj
  end.

Definition updateAPIService (obj _old : cache.Object) : Ctl unit :=
  match cache.asAPIService obj with
  | None => panic "interface conversion: interface {} is not *apiregistration.APIService"
  | Some castObj =>
      emit (GlogV4Infof "Updating %s" (Name castObj)) ;;
      enqueue castObj
  end.

Definition deleteAPIService (obj : cache.Object) : Ctl unit :=
  let rest (castObj : APIService) : Ctl unit :=
    emit (GlogV4Infof "Deleting %q" (Name castObj)) ;;
    enqueue castObj in
  match cache.asAPIService obj with
  | Some castObj => rest castObj
  | None =>
      match cache.asDeletedFinalStateUnknown obj with
      | None => emit (GlogErrorf "Couldn't get object from tombstone %#v")
      | Some tombstoneObj =>
          match cache.asAPIService tombstoneObj with
          | None => emit (GlogErrorf "Tombstone contained object that is not expected %#v")
          | Some castObj => rest castObj
          end
      end
  end.

(** The loop of the source appends to [ret] every listed registration
    that is not skipped by [continue] and passes the test. *)
Fixpoint getAPIServicesFor_loop
    (service : api.Service) (apiServiceList ret : list APIService) : list APIService :=
  match apiServiceList with
  | [] => ret
  | apiService :: rest =>
      match Service (Spec apiService) with
      | None => getAPIServicesFor_loop service rest ret
      | Some ref =>
          if bool_decide (ServiceReference.Namespace ref = api.Namespace service)
             && bool_decide (ServiceReference.Name ref = api.Name service)
          then getAPIServicesFor_loop service rest (ret ++ [apiService])
          else getAPIServicesFor_loop service rest ret
      end
  end.

Definition getAPIServicesFor
    (c : APIServiceRegistrationController) (service : api.Service) : list APIService :=
  let '(apiServiceList, _) := listers.List (apiServiceLister c) in
  getAPIServicesFor_loop service apiServiceList [].

Definition addService (c : APIServiceRegistrationController) (obj : cache.Object)
    : Ctl unit :=
  match cache.asService obj with
  | None => panic "interface conversion: interface {} is not *api.Service"
  | Some service => forRange (getAPIServicesFor c service) enqueue
  end.

Definition updateService (c : APIServiceRegistrationController) (obj _old : cache.Object)
    : Ctl unit :=
  match cache.asService obj with
  | None => panic "interface conversion: interface {} is not *api.Service"
  | Some service => forRange (getAPIServicesFor c service) enqueue
  end.

Definition deleteService (c : APIServiceRegistrationController) (obj : cache.Object)
    : Ctl unit :=
  let rest (castObj : api.Service) : Ctl unit :=
    forRange (getAPIServicesFor c castObj) enqueue in
  match cache.asService obj with
  | Some castObj => rest castObj
  | None =>
      match cache.asDeletedFinalStateUnknown obj with
      | None => emit (GlogErrorf "Couldn't get object from tombstone %#v")
      | Some tombstoneObj =>
          match cache.asService tombstoneObj with
          | None => emit (GlogErrorf "Tombstone contained object that is not expected %#v")
          | Some castObj => rest castObj
          end
      end
  end.

(** [runWorker] loops until [processNextWorkItem] returns false; [fuel]
    bounds the iterations, and [None] says it ran out.  [Run], which starts
    the worker as a goroutine and waits for the stop channel, has no
    sequential counterpart here. *)
Fixpoint runWorker (fuel : nat) (c : APIServiceRegistrationController)
    : Ctl (option unit) :=
  match fuel with
  | O => ret None
  | S fuel' =>
      continue ← processNextWorkItem c;
      if (continue : bool) then runWorker fuel' c else ret (Some tt)
  end.

(** Consecutive reconciliations, each against the caches as they are at
    that moment: the listers of the step's controller value. *)
Fixpoint syncAll (steps : list (APIServiceRegistrationController * string))
    : Ctl (list (option error)) :=
  match steps with
  | [] => ret []
  | (c, key) :: steps' =>
      err ← sync c key;
      errs ← syncAll steps';
      ret (err :: errs)
  end.

End Controller.

Arguments World : clear implicits.
Arguments Ctl : clear implicits.
Arguments APIServiceRegistrationController M Q : clear implicits.

(** ** Implementations of the collaborators *)

(** The registered-endpoint set of a handler manager that installs or
    replaces the entry of a registration on [AddAPIService] and removes it on
    [RemoveAPIService]: the destination of every installed name. *)
#[export] Instance endpointSet : APIHandlerManager (gmap string string) := {
  AddAPIService apiService destinationHost m := <[Name apiService := destinationHost]> m;
  RemoveAPIService apiServiceName m := delete apiServiceName m
}.

(** A queue that hands out a script of [Get] results and keeps nothing
    else; when the script is over it reports the shutdown. *)
#[export] Instance scriptedQueue : workqueue.RateLimitingInterface (list string) := {
  Add _ q := q;
  Get q := match q with
           | [] => ("", true, [])
           | key :: q' => (key, false, q')
           end;
  Done _ q := q;
  Forget _ q := q;
  AddRateLimited _ q := q;
  ShutDown _ := []
}.

(** A service cache holding the listed services. *)
Definition serviceListerOf (services : list api.Service) : internallisters.ServiceLister :=
  {| internallisters.Services ns :=
       {| internallisters.Get name :=
            match List.find (fun s => bool_decide (api.Namespace s = ns)
                                      && bool_decide (api.Name s = name)) services with
            | Some s => inl s
            | None => inr (ErrNotFound "service not found")
            end |} |}.

(** A registration cache holding the listed registrations. *)
Definition apiServiceListerOf (apiServices : list APIService) : listers.APIServiceLister :=
  {| listers.Get name :=
       match List.find (fun a => bool_decide (Name a = name)) apiServices with
       | Some a => inl a
       | None => inr (ErrNotFound "apiservice not found")
       end;
     listers.List := (apiServices, None) |}.

(** A registration cache whose every lookup fails with [err]. *)
Definition failingAPIServiceLister (err : error) : listers.APIServiceLister :=
  {| listers.Get _ := inr err; listers.List := ([], Some err) |}.

(** ** Reading a run *)

Section Runs.
Context {M Q : Type}.
Context `{!APIHandlerManager M, !workqueue.RateLimitingInterface Q}.

Definition outcomeOf {A : Type} (r : Outcome A * World M Q * list Event) : Outcome A := r.1.1.
Definition worldOf {A : Type} (r : Outcome A * World M Q * list Event) : World M Q := r.1.2.
Definition traceOf {A : Type} (r : Outcome A * World M Q * list Event) : list Event := r.2.

(** The registration cache answers "not found" for [key]. *)
Definition lookupNotFound (c : APIServiceRegistrationController M Q) (key : string) : Prop :=
  exists message, listers.Get (apiServiceLister c) key = inr (ErrNotFound message).

(** The registration cache fails for [key] with [err], which is not a
    "not found". *)
Definition lookupFails (c : APIServiceRegistrationController M Q) (key : string)
    (err : error) : Prop :=
  listers.Get (apiServiceLister c) key = inr err
  /\ apierrors.IsNotFound (Some err) = false.

(** The registration cache holds [apiService] under [key]. *)
Definition lookupFinds (c : APIServiceRegistrationController M Q) (key : string)
    (apiService : APIService) : Prop :=
  listers.Get (apiServiceLister c) key = inl apiService.

(** The service cache's answer for a service reference. *)
Definition lookupService (c : APIServiceRegistrationController M Q)
    (ref : ServiceReference.t) : api.Service + error :=
  internallisters.Get
    (internallisters.Services (serviceLister c) (ServiceReference.Namespace ref))
    (ServiceReference.Name ref).

(** The registration cache of [c] keeps every registration under its own
    name. *)
Definition coherent (c : APIServiceRegistrationController M Q) : Prop :=
  forall key apiService, lookupFinds c key apiService -> Name apiService = key.

(** In a run of [steps] that returned [errs], step [i] reconciled [key]
    against the caches of [c] and returned nil, and no later step that
    reconciled [key] returned nil. *)
Definition lastSuccessfulSync
    (steps : list (APIServiceRegistrationController M Q * string))
    (errs : list (option error)) (key : string) (i : nat)
    (c : APIServiceRegistrationController M Q) : Prop :=
  steps !! i = Some (c, key)
  /\ errs !! i = Some None
  /\ forall j c', i < j -> steps !! j = Some (c', key) -> errs !! j <> Some None.

(** No step that reconciled [key] returned nil. *)
Definition noSuccessfulSync
    (steps : list (APIServiceRegistrationController M Q * string))
    (errs : list (option error)) (key : string) : Prop :=
  forall j c', steps !! j = Some (c', key) -> errs !! j <> Some None.

(** The service reference of [apiService] is the namespace and name of
    [service]. *)
Definition references (service : api.Service) (apiService : APIService) : bool :=
  match Service (Spec apiService) with
  | None => false
  | Some ref =>
      bool_decide (ServiceReference.Namespace ref = api.Namespace service)
      && bool_decide (ServiceReference.Name ref = api.Name service)
  end.

(** A delete notification is malformed, for the handler of objects that
    [wrap] makes, when its payload is neither such an object nor a tombstone
    around such an object. *)
Definition malformedDelete {T : Type} (wrap : T -> cache.Object)
    (obj : cache.Object) : Prop :=
  (forall x, obj <> wrap x)
  /\ (forall tombstoneKey x, obj <> cache.DeletedFinalStateUnknown tombstoneKey (wrap x)).

End Runs.

(** *** Counting calls *)

#[export] Instance error_eq_dec : EqDecision error.
Proof. solve_decision. Defined.
#[export] Instance ServiceReference_eq_dec : EqDecision ServiceReference.t.
Proof. solve_decision. Defined.
#[export] Instance APIServiceSpec_eq_dec : EqDecision APIServiceSpec.
Proof. solve_decision. Defined.
#[export] Instance APIServiceStatus_eq_dec : EqDecision APIServiceStatus.
Proof. solve_decision. Defined.
#[export] Instance APIService_eq_dec : EqDecision APIService.
Proof. solve_decision. Defined.
#[export] Instance Event_eq_dec : EqDecision Event.
Proof. solve_decision. Defined.

(** How many times the call [e] is made in [t]. *)
Definition calls (e : Event) (t : list Event) : nat := count_occ Event_eq_dec t e.

(** The keys the sync function was called for, in order. *)
Definition syncCalls (t : list Event) : list string :=
  omap (fun e => match e with CallSyncFn key => Some key | _ => None end) t.

Ltac count_calls :=
  unfold calls;
  repeat first
    [ rewrite count_occ_cons_eq by reflexivity
    | rewrite count_occ_cons_neq by discriminate
    | rewrite count_occ_nil ].

(** *** Reading the calls of a trace *)

(** The keys [Get] delivered, those it did not report with the shutdown. *)
Definition deliveredKeys (t : list Event) : list string :=
  omap (fun e => match e with CallQueueGet key false => Some key | _ => None end) t.

(** The keys [Done] was called for. *)
Definition doneCalls (t : list Event) : list string :=
  omap (fun e => match e with CallQueueDone key => Some key | _ => None end) t.

(** The keys settled by a [Forget] or by an [AddRateLimited]. *)
Definition settledCalls (t : list Event) : list string :=
  omap (fun e => match e with
                 | CallQueueForget key | CallQueueAddRateLimited key => Some key
                 | _ => None
                 end) t.

(** The calls that report the shutdown of the queue. *)
Definition shutdownSeen (t : list Event) : list string :=
  omap (fun e => match e with CallQueueGet key true => Some key | _ => None end) t.

(** A call to the handler manager. *)
Definition isHandlerManagerCall (e : Event) : bool :=
  match e with
  | CallAddAPIService _ _ | CallRemoveAPIService _ => true
  | _ => false
  end.

(** What an event handler may do: add to the queue, and log. *)
Definition isRouterEvent (e : Event) : bool :=
  match e with
  | CallQueueAdd _ | GlogErrorf _ | GlogV4Infof _ _ => true
  | _ => false
  end.

(** The service types whose cluster IP is used as destination. *)
Definition usesClusterIP (service : api.Service) : Prop :=
  api.Type_ (api.Spec service)
    ∈ [api.ServiceTypeClusterIP; api.ServiceTypeNodePort; api.ServiceTypeLoadBalancer].

(** ** Example objects: the scenario of the specification *)

Definition svcA_ref : ServiceReference.t :=
  {| ServiceReference.Namespace := "ns1"; ServiceReference.Name := "svcA" |}.

Definition R1 : APIService :=
  {| Name := "R1";
     Spec := {| Service := Some svcA_ref |};
     Status := {| ConditionAvailable := true |} |}.

Definition R1_unavailable : APIService :=
  {| Name := "R1";
     Spec := {| Service := Some svcA_ref |};
     Status := {| ConditionAvailable := false |} |}.

(** A registration served by the aggregator itself: no service reference. *)
Definition Rlocal : APIService :=
  {| Name := "Rlocal";
     Spec := {| Service := None |};
     Status := {| ConditionAvailable := true |} |}.

Definition R2 : APIService :=
  {| Name := "R2";
     Spec := {| Service := Some {| ServiceReference.Namespace := "ns2";
                                   ServiceReference.Name := "svcA" |} |};
     Status := {| ConditionAvailable := true |} |}.

Definition svcA : api.Service :=
  {| api.Namespace := "ns1"; api.Name := "svcA";
     api.Spec := {| api.Type_ := api.ServiceTypeLoadBalancer; api.ClusterIP := "1.2.3.4" |} |}.

Definition svcA_external : api.Service :=
  {| api.Namespace := "ns1"; api.Name := "svcA";
     api.Spec := {| api.Type_ := "ExternalName"; api.ClusterIP := "" |} |}.

Definition emptyWorld : World (gmap string string) (list string) :=
  {| apiHandlerManager := ∅; queue := [] |}.

Definition controllerOf (apiServices : list APIService) (services : list api.Service)
    : APIServiceRegistrationController (gmap string string) (list string) :=
  NewAPIServiceRegistrationController (apiServiceListerOf apiServices) (serviceListerOf services).

(** A controller whose registration cache is failing. *)
Definition failingController (err : error)
    : APIServiceRegistrationController (gmap string string) (list string) :=
  NewAPIServiceRegistrationController (failingAPIServiceLister err) (serviceListerOf []).

(** Three moments at which the registration cache has no [R1]. *)
Definition absentR1 : list (APIServiceRegistrationController (gmap string string) (list string)) :=
  [controllerOf [] []; controllerOf [R2] [svcA]; controllerOf [Rlocal] []].

(** [R1] is installed, found unavailable, and deleted. *)
Definition installThenDelete
    : list (APIServiceRegistrationController (gmap string string) (list string) * string) :=
  [(controllerOf [R1] [svcA], "R1");
   (controllerOf [R1_unavailable] [svcA], "R1");
   (controllerOf [R2] [svcA], "R1")].

(** A handler manager left with an entry for [R1] that nothing backs. *)
Definition staleWorld : World (gmap string string) (list string) :=
  {| apiHandlerManager := {[ "R1" := "stale.example" ]}; queue := [] |}.

(** A world whose queue will deliver [R1] and [Rlocal] and then shut
    down. *)
Definition scriptedWorld : World (gmap string string) (list string) :=
  {| apiHandlerManager := ∅; queue := ["R1"; "Rlocal"] |}.

(** A routable service that has no cluster IP. *)
Definition svcA_noIP : api.Service :=
  {| api.Namespace := "ns1"; api.Name := "svcA";
     api.Spec := {| api.Type_ := api.ServiceTypeClusterIP; api.ClusterIP := "" |} |}.

(** ** The Sync Engine *)

Section SyncProperties.
Context {M Q : Type}.
Context `{!APIHandlerManager M, !workqueue.RateLimitingInterface Q}.
Implicit Types (c : APIServiceRegistrationController M Q) (w : World M Q).
Implicit Types (key : string) (apiService : APIService).

(** Every run of [sync], by the answer of the registration cache. *)
Lemma sync_cases c key w :
  sync c key w =
    match listers.Get (apiServiceLister c) key with
    | inr (ErrNotFound _) =>
        (Returned None, withHandlers (RemoveAPIService key) w, [CallRemoveAPIService key])
    | inr err => (Returned (Some err), w, [])
    | inl apiService =>
        if IsAPIServiceConditionTrue apiService Available
        then (Returned None,
              withHandlers (AddAPIService apiService (getDestinationHost c apiService)) w,
              [CallAddAPIService apiService (getDestinationHost c apiService)])
        else (Returned None, withHandlers (RemoveAPIService key) w,
              [CallRemoveAPIService key])
    end.
Proof.
  unfold sync.
  destruct (listers.Get (apiServiceLister c) key) as [apiService|[message|message]];
    simpl; try reflexivity.
  destruct (ConditionAvailable (Status apiService)); reflexivity.
Qed.

(** [sync] always returns, and leaves the queue alone. *)
Lemma sync_returns c key w :
  exists err m t,
    sync c key w = (Returned err, withHandlers (fun _ => m) w, t)
    /\ syncCalls t = [].
Proof.
  rewrite sync_cases.
  destruct (listers.Get (apiServiceLister c) key) as [apiService|[message|message]];
    [destruct (IsAPIServiceConditionTrue apiService Available)|..];
    try (by eexists _, _, _).
  exists (Some (ErrOther message)), (apiHandlerManager w), []. by destruct w.
Qed.

Lemma sync_not_found c key w :
  lookupNotFound c key ->
  sync c key w =
    (Returned None, withHandlers (RemoveAPIService key) w, [CallRemoveAPIService key]).
Proof. intros [message Hget]. rewrite sync_cases, Hget. reflexivity. Qed.

Lemma syncAll_cons c key steps w :
  syncAll ((c, key) :: steps) w =
    match sync c key w with
    | (Returned err, w1, t1) =>
        match syncAll steps w1 with
        | (Returned errs, w2, t2) => (Returned (err :: errs), w2, t1 ++ t2)
        | (Panicked reason, w2, t2) => (Panicked reason, w2, t1 ++ t2)
        end
    | (Panicked reason, w1, t1) => (Panicked reason, w1, t1)
    end.
Proof.
  cbn [syncAll]. unfold mbind, Ctl_bind, bind.
  destruct (sync c key w) as [[[err|reason] w1] t1]; [|reflexivity].
  destruct (syncAll steps w1) as [[[errs|reason] w2] t2]; [|reflexivity].
  unfold ret. by rewrite app_nil_r.
Qed.

(** C1.  While the registration cache answers "not found" for [key], every
    one of any number of consecutive syncs of [key] returns nil and calls
    [RemoveAPIService(key)], and nothing else: the calls of the whole run
    are one [RemoveAPIService(key)] per sync, none of them an
    [AddAPIService], and the handler manager has seen exactly these. *)
Theorem sync_absent_registration_removes
    (cs : list (APIServiceRegistrationController M Q)) key w :
  Forall (fun c => lookupNotFound c key) cs ->
  let run := syncAll ((fun c => (c, key)) <$> cs) w in
  outcomeOf run = Returned (replicate (length cs) None)
  /\ traceOf run = replicate (length cs) (CallRemoveAPIService key)
  /\ worldOf run = Nat.iter (length cs) (withHandlers (RemoveAPIService key)) w
  /\ forall apiService destinationHost,
       CallAddAPIService apiService destinationHost ∉ traceOf run.
Proof.
  intros Hcs. cbn zeta.
  assert (Hrun : syncAll ((fun c => (c, key)) <$> cs) w =
                 (Returned (replicate (length cs) None),
                  Nat.iter (length cs) (withHandlers (RemoveAPIService key)) w,
                  replicate (length cs) (CallRemoveAPIService key))).
  { revert w. induction Hcs as [|c cs Hc _ IH]; intros w; [reflexivity|].
    rewrite fmap_cons, syncAll_cons, (sync_not_found _ _ _ Hc), IH.
    cbn [length replicate]. rewrite Nat.iter_succ_r. reflexivity. }
  rewrite Hrun. unfold outcomeOf, worldOf, traceOf. cbn [fst snd].
  repeat split.
  intros apiService destinationHost Hin.
  apply elem_of_replicate in Hin as [Heq _]. discriminate.
Qed.

(** C2.  When the registration cache holds a registration under [key] and
    its Available condition is not true, [sync] returns nil and its only
    call is [RemoveAPIService(key)], whatever the service reference of the
    registration. *)
Theorem sync_unavailable_registration_removes c key apiService w :
  lookupFinds c key apiService ->
  IsAPIServiceConditionTrue apiService Available = false ->
  sync c key w =
    (Returned None, withHandlers (RemoveAPIService key) w, [CallRemoveAPIService key])
  /\ forall a destinationHost,
       CallAddAPIService a destinationHost ∉ traceOf (sync c key w).
Proof.
  intros Hget Hcond.
  assert (Hrun : sync c key w =
                 (Returned None, withHandlers (RemoveAPIService key) w,
                  [CallRemoveAPIService key]))
    by (rewrite sync_cases, Hget, Hcond; reflexivity).
  rewrite Hrun. split; [reflexivity|].
  intros a destinationHost Hin. cbn in Hin.
  apply list_elem_of_singleton in Hin. discriminate.
Qed.

(** C6.  [sync] returns the error [err] exactly when the lookup of [key]
    in the registration cache fails with [err] and [err] is not a "not
    found"; a sync that returns an error has called nothing and has left
    the handler manager and the queue as they were; and [sync] always
    returns. *)
Theorem sync_error_iff_lookup_fails c key w :
  (forall err,
     outcomeOf (sync c key w) = Returned (Some err) <-> lookupFails c key err)
  /\ (forall err,
       outcomeOf (sync c key w) = Returned (Some err) ->
       traceOf (sync c key w) = [] /\ worldOf (sync c key w) = w)
  /\ exists result, outcomeOf (sync c key w) = Returned result.
Proof.
  rewrite sync_cases. unfold lookupFails, outcomeOf, traceOf, worldOf.
  destruct (listers.Get (apiServiceLister c) key) as [apiService|[message|message]];
    [destruct (IsAPIServiceConditionTrue apiService Available)|..]; cbn [fst snd];
    (split; [intros err; split; [intros Heq|intros [Hget Hnf]]
            |split; [intros err Heq|by eexists]]);
    by simplify_eq/=.
Qed.

(** C10.  When the registration cache holds under [key] a registration
    whose Available condition is true and that has no service reference,
    [sync] returns nil and its only call is [AddAPIService] with that
    registration and the empty string as destination host. *)
Theorem sync_available_without_service_adds_empty_host c key apiService w :
  lookupFinds c key apiService ->
  IsAPIServiceConditionTrue apiService Available = true ->
  Service (Spec apiService) = None ->
  getDestinationHost c apiService = ""
  /\ sync c key w =
       (Returned None, withHandlers (AddAPIService apiService "") w,
        [CallAddAPIService apiService ""])
  /\ forall name, CallRemoveAPIService name ∉ traceOf (sync c key w).
Proof.
  intros Hget Hcond Hsvc.
  assert (Hhost : getDestinationHost c apiService = "")
    by (unfold getDestinationHost; by rewrite Hsvc).
  assert (Hrun : sync c key w =
                 (Returned None, withHandlers (AddAPIService apiService "") w,
                  [CallAddAPIService apiService ""]))
    by (rewrite sync_cases, Hget, Hcond, Hhost; reflexivity).
  rewrite Hrun. split; [exact Hhost|split; [reflexivity|]].
  intros name Hin. cbn in Hin. apply list_elem_of_singleton in Hin. discriminate.
Qed.

End SyncProperties.

(** ** The Resolver *)

Section ResolverProperties.
Context {M Q : Type}.
Context `{!APIHandlerManager M, !workqueue.RateLimitingInterface Q}.
Implicit Types (c : APIServiceRegistrationController M Q).

(** C3.  The destination host of a registration is the empty string when
    the registration has no service reference.  With a reference to
    service [Name] in [Namespace] it is [Name.Namespace.svc] when the
    lookup of the service fails, whatever the error; the [ClusterIP] of the
    service found when its type is ClusterIP, NodePort or LoadBalancer;
    and [Name.Namespace.svc] again for a service of any other type. *)
Theorem getDestinationHost_resolution c apiService :
  (Service (Spec apiService) = None -> getDestinationHost c apiService = "")
  /\ forall ref,
       Service (Spec apiService) = Some ref ->
       let destinationHost :=
         ServiceReference.Name ref +:+ "." +:+ ServiceReference.Namespace ref +:+ ".svc" in
       (forall err,
          lookupService c ref = inr err ->
          getDestinationHost c apiService = destinationHost)
       /\ (forall service,
             lookupService c ref = inl service ->
             (api.Type_ (api.Spec service)
                ∈ [api.ServiceTypeClusterIP; api.ServiceTypeNodePort;
                   api.ServiceTypeLoadBalancer] ->
              getDestinationHost c apiService = api.ClusterIP (api.Spec service))
             /\ (api.Type_ (api.Spec service)
                   ∉ [api.ServiceTypeClusterIP; api.ServiceTypeNodePort;
                      api.ServiceTypeLoadBalancer] ->
                 getDestinationHost c apiService = destinationHost)).
Proof.
  unfold getDestinationHost, lookupService. split.
  - by intros ->.
  - intros ref ->. cbn zeta. split.
    + by intros err ->.
    + intros service ->. rewrite !elem_of_cons, elem_of_nil.
      repeat case_bool_decide; cbn; split; intros Htype;
        first [reflexivity | exfalso; tauto].
Qed.

End ResolverProperties.

(** ** The Event Router *)

Section RouterProperties.
Context {M Q : Type}.
Context `{!APIHandlerManager M, !workqueue.RateLimitingInterface Q}.
Implicit Types (c : APIServiceRegistrationController M Q) (w : World M Q).
Implicit Types (apiService : APIService) (service : api.Service).

Lemma enqueue_adds_name apiService w :
  enqueue apiService w =
    (Returned tt, withQueue (workqueue.Add (Name apiService)) w,
     [CallQueueAdd (Name apiService)]).
Proof. reflexivity. Qed.

(** Enqueuing a list of registrations adds their names, in order. *)
Lemma forRange_enqueue (l : list APIService) w :
  forRange l enqueue w =
    (Returned tt,
     foldl (fun w' apiService => withQueue (workqueue.Add (Name apiService)) w') w l,
     (fun apiService => CallQueueAdd (Name apiService)) <$> l).
Proof.
  revert w. induction l as [|apiService l IH]; intros w; [reflexivity|].
  cbn [forRange]. unfold mbind, Ctl_bind, bind.
  rewrite enqueue_adds_name, IH. reflexivity.
Qed.

Lemma references_spec service apiService :
  references service apiService = true <->
  Service (Spec apiService) =
    Some {| ServiceReference.Namespace := api.Namespace service;
            ServiceReference.Name := api.Name service |}.
Proof.
  unfold references. destruct (Service (Spec apiService)) as [[ns name]|]; cbn.
  - rewrite andb_true_iff, !bool_decide_eq_true. split.
    + by intros [-> ->].
    + by intros [= -> ->].
  - split; discriminate.
Qed.

Lemma getAPIServicesFor_loop_filter service (l ret : list APIService) :
  getAPIServicesFor_loop service l ret = ret ++ List.filter (references service) l.
Proof.
  revert ret. induction l as [|apiService l IH]; intros ret; cbn.
  - by rewrite app_nil_r.
  - unfold references at 1.
    destruct (Service (Spec apiService)) as [ref|]; [|apply IH].
    destruct (bool_decide _ && bool_decide _); rewrite IH; [|done].
    by rewrite <- app_assoc.
Qed.

Lemma getAPIServicesFor_filter c service :
  getAPIServicesFor c service =
    List.filter (references service) (listers.List (apiServiceLister c)).1.
Proof.
  unfold getAPIServicesFor.
  destruct (listers.List (apiServiceLister c)) as [apiServiceList err].
  apply getAPIServicesFor_loop_filter.
Qed.

(** C4.  On an add, update or delete event of a service, also a delete
    that arrives as a tombstone, the router adds to the queue the name of
    every listed registration whose service reference is the namespace and
    name of the service, in the order of the list, and makes no other
    call.  A listed registration with another reference or with none is
    not among those enqueued; where the names of the listed registrations
    are distinct, its name is not added either. *)
Theorem service_event_enqueues_referencing_registrations
    c service (old : cache.Object) (tombstoneKey : string) w :
  let listed := (listers.List (apiServiceLister c)).1 in
  let enqueued := getAPIServicesFor c service in
  let result : Outcome unit * World M Q * list Event :=
    (Returned tt,
     foldl (fun w' apiService => withQueue (workqueue.Add (Name apiService)) w') w enqueued,
     (fun apiService => CallQueueAdd (Name apiService)) <$> enqueued) in
  (forall apiService,
     apiService ∈ enqueued <->
     apiService ∈ listed
     /\ Service (Spec apiService) =
          Some {| ServiceReference.Namespace := api.Namespace service;
                  ServiceReference.Name := api.Name service |})
  /\ enqueued = List.filter (references service) listed
  /\ (forall apiService, Service (Spec apiService) = None -> apiService ∉ enqueued)
  /\ addService c (cache.ServicePtr service) w = result
  /\ updateService c (cache.ServicePtr service) old w = result
  /\ deleteService c (cache.ServicePtr service) w = result
  /\ deleteService c (cache.DeletedFinalStateUnknown tombstoneKey (cache.ServicePtr service)) w
       = result
  /\ (NoDup (Name <$> listed) ->
      forall apiService,
        apiService ∈ listed ->
        (CallQueueAdd (Name apiService) ∈ traceOf result <->
         Service (Spec apiService) =
           Some {| ServiceReference.Namespace := api.Namespace service;
                   ServiceReference.Name := api.Name service |})).
Proof.
  cbn zeta.
  assert (Hin : forall apiService,
            apiService ∈ getAPIServicesFor c service <->
            apiService ∈ (listers.List (apiServiceLister c)).1
            /\ Service (Spec apiService) =
                 Some {| ServiceReference.Namespace := api.Namespace service;
                         ServiceReference.Name := api.Name service |}).
  { intros apiService.
    rewrite getAPIServicesFor_filter, !list_elem_of_In, filter_In, references_spec.
    done. }
  split; [exact Hin|].
  split; [apply getAPIServicesFor_filter|].
  split.
  { intros apiService Hnone [_ Href]%Hin. congruence. }
  repeat (split; [apply forRange_enqueue|]).
  intros Hnodup apiService Hlisted. unfold traceOf. cbn [snd].
  rewrite list_elem_of_fmap. split.
  - intros (other & [= Hname] & [Hother Href]%Hin).
    assert (apiService = other) as -> ; [|done].
    apply list_elem_of_lookup in Hlisted as [i Hi].
    apply list_elem_of_lookup in Hother as [j Hj].
    assert (i = j) as ->.
    { eapply NoDup_lookup; [exact Hnodup| |].
      - rewrite list_lookup_fmap, Hi. reflexivity.
      - rewrite list_lookup_fmap, Hj. cbn. by rewrite Hname. }
    congruence.
  - intros Href. exists apiService. split; [done|]. by apply Hin.
Qed.

(** C8.  A delete notification of a registration, or of a service, whose
    payload is neither the object itself nor a tombstone around such an
    object is logged as an error and nothing else happens: no key is added
    to the queue.  A tombstone around a registration, or a service, is
    handled as the delete of the object it wraps: for a registration its
    name is added to the queue, and for a service the names of the listed
    registrations that refer to it are added to the queue, in the order of
    the list. *)
Theorem malformed_delete_is_logged_and_dropped c w :
  (forall obj,
     malformedDelete cache.APIServicePtr obj ->
     exists format, deleteAPIService obj w = (Returned tt, w, [GlogErrorf format]))
  /\ (forall obj,
        malformedDelete cache.ServicePtr obj ->
        exists format, deleteService c obj w = (Returned tt, w, [GlogErrorf format]))
  /\ (forall tombstoneKey apiService,
        deleteAPIService (cache.DeletedFinalStateUnknown tombstoneKey
                            (cache.APIServicePtr apiService)) w
          = deleteAPIService (cache.APIServicePtr apiService) w
        /\ deleteAPIService (cache.APIServicePtr apiService) w
             = (Returned tt, withQueue (workqueue.Add (Name apiService)) w,
                [GlogV4Infof "Deleting %q" (Name apiService);
                 CallQueueAdd (Name apiService)]))
  /\ (forall tombstoneKey service,
        deleteService c (cache.DeletedFinalStateUnknown tombstoneKey
                           (cache.ServicePtr service)) w
          = deleteService c (cache.ServicePtr service) w
        /\ deleteService c (cache.ServicePtr service) w
             = (Returned tt,
                foldl (fun w' apiService => withQueue (workqueue.Add (Name apiService)) w')
                  w (List.filter (references service) (listers.List (apiServiceLister c)).1),
                (fun apiService => CallQueueAdd (Name apiService))
                  <$> List.filter (references service) (listers.List (apiServiceLister c)).1)).
Proof.
  split; [|split; [|split]].
  - intros obj [Hlive Htombstone].
    destruct obj as [apiService|service|tombstoneKey tombstoneObj|dynamicType];
      [by destruct (Hlive apiService)|by eexists| |by eexists].
    destruct tombstoneObj as [apiService| | |];
      [by destruct (Htombstone tombstoneKey apiService)|by eexists..].
  - intros obj [Hlive Htombstone].
    destruct obj as [apiService|service|tombstoneKey tombstoneObj|dynamicType];
      [by eexists|by destruct (Hlive service)| |by eexists].
    destruct tombstoneObj as [|service| |];
      [|by destruct (Htombstone tombstoneKey service)|..]; by eexists.
  - intros tombstoneKey apiService. split; reflexivity.
  - intros tombstoneKey service. split; [reflexivity|].
    rewrite <- getAPIServicesFor_filter. apply forRange_enqueue.
Qed.

End RouterProperties.

(** ** The Run Loop *)

Section RunLoopProperties.
Context {M Q : Type}.
Context `{!APIHandlerManager M, !workqueue.RateLimitingInterface Q}.
Implicit Types (c : APIServiceRegistrationController M Q) (w : World M Q).
Implicit Types (key : string).

Lemma queueDone_run key w :
  queueDone key w = (Returned tt, withQueue (workqueue.Done key) w, [CallQueueDone key]).
Proof. reflexivity. Qed.

Lemma queueForget_run key w :
  queueForget key w =
    (Returned tt, withQueue (workqueue.Forget key) w, [CallQueueForget key]).
Proof. reflexivity. Qed.

Lemma queueAddRateLimited_run key w :
  queueAddRateLimited key w =
    (Returned tt, withQueue (workqueue.AddRateLimited key) w,
     [CallQueueAddRateLimited key]).
Proof. reflexivity. Qed.

(** One item, whatever function is injected as [syncFn]. *)
Lemma processNextWorkItem_delivered c w key q' :
  workqueue.Get (queue w) = (key, false, q') ->
  processNextWorkItem c w =
    match syncFn c key (withQueue (fun _ => q') w) with
    | (Returned None, w2, t) =>
        (Returned true,
         withQueue (workqueue.Done key) (withQueue (workqueue.Forget key) w2),
         [CallQueueGet key false; CallSyncFn key] ++ t
           ++ [CallQueueForget key; CallQueueDone key])
    | (Returned (Some err), w2, t) =>
        (Returned true,
         withQueue (workqueue.Done key) (withQueue (workqueue.AddRateLimited key) w2),
         [CallQueueGet key false; CallSyncFn key] ++ t
           ++ [CallHandleError key err; CallQueueAddRateLimited key; CallQueueDone key])
    | (Panicked reason, w2, t) =>
        (Panicked reason, withQueue (workqueue.Done key) w2,
         [CallQueueGet key false; CallSyncFn key] ++ t ++ [CallQueueDone key])
    end.
Proof.
  intros Hget. unfold processNextWorkItem, mbind, Ctl_bind, bind, queueGet.
  rewrite Hget. cbn. unfold defer, bind. cbn.
  destruct (syncFn c key (withQueue (fun _ => q') w)) as [[[[err|]|reason] w2] t]; cbn.
  - rewrite queueAddRateLimited_run; cbn. rewrite queueDone_run; cbn.
    rewrite <- !app_assoc. reflexivity.
  - rewrite queueForget_run; cbn. rewrite queueDone_run; cbn.
    rewrite <- !app_assoc. reflexivity.
  - rewrite queueDone_run. reflexivity.
Qed.

Lemma processNextWorkItem_shutdown c w key q' :
  workqueue.Get (queue w) = (key, true, q') ->
  processNextWorkItem c w =
    (Returned false, withQueue (fun _ => q') w, [CallQueueGet key true]).
Proof.
  intros Hget. unfold processNextWorkItem, mbind, Ctl_bind, bind, queueGet.
  rewrite Hget. reflexivity.
Qed.

(** The calls [sync] makes go to the handler manager only. *)
Lemma sync_trace_handler_calls c key w :
  Forall (fun e => (exists apiService destinationHost,
                      e = CallAddAPIService apiService destinationHost)
                   \/ exists name, e = CallRemoveAPIService name)
         (traceOf (sync c key w)).
Proof.
  rewrite sync_cases.
  destruct (listers.Get (apiServiceLister c) key) as [apiService|[message|message]];
    [destruct (IsAPIServiceConditionTrue apiService Available)|..]; cbn;
    first [apply Forall_nil_2 | apply Forall_singleton; eauto].
Qed.

Lemma calls_app e (t1 t2 : list Event) : calls e (t1 ++ t2) = calls e t1 + calls e t2.
Proof. apply count_occ_app. Qed.

Lemma calls_sync_trace c key w e :
  (forall apiService destinationHost, e <> CallAddAPIService apiService destinationHost) ->
  (forall name, e <> CallRemoveAPIService name) ->
  calls e (traceOf (sync c key w)) = 0.
Proof.
  intros Hadd Hremove. apply count_occ_not_In. intros Hin.
  pose proof (sync_trace_handler_calls c key w) as Hall.
  rewrite Forall_forall in Hall.
  destruct (Hall e) as [(apiService & destinationHost & ->)|(name & ->)].
  - by apply list_elem_of_In.
  - by eapply Hadd.
  - by eapply Hremove.
Qed.

(** C7.  When [Get] delivers [key], one step of the run loop calls the
    sync function once, for [key]; then, if that returned nil, it calls
    [Forget(key)], and if it returned an error, [HandleError] and
    [AddRateLimited(key)]; [Done(key)] is the last call on either path,
    and also when the sync function panics; and on both returning paths
    the step returns true.  With [sync] as the sync function, which is how
    the constructor sets it, the whole step calls [Done(key)] exactly
    once, and [Forget(key)] once and [AddRateLimited(key)] never after a
    nil, [AddRateLimited(key)] once and [Forget(key)] never after an
    error. *)
Theorem processNextWorkItem_forgets_or_requeues_and_continues c w key q' :
  workqueue.Get (queue w) = (key, false, q') ->
  let w1 := withQueue (fun _ => q') w in
  let run := processNextWorkItem c w in
  match syncFn c key w1 with
  | (Returned None, w2, t) =>
      run = (Returned true,
             withQueue (workqueue.Done key) (withQueue (workqueue.Forget key) w2),
             [CallQueueGet key false; CallSyncFn key] ++ t
               ++ [CallQueueForget key; CallQueueDone key])
  | (Returned (Some err), w2, t) =>
      run = (Returned true,
             withQueue (workqueue.Done key) (withQueue (workqueue.AddRateLimited key) w2),
             [CallQueueGet key false; CallSyncFn key] ++ t
               ++ [CallHandleError key err; CallQueueAddRateLimited key;
                   CallQueueDone key])
  | (Panicked reason, w2, t) =>
      run = (Panicked reason, withQueue (workqueue.Done key) w2,
             [CallQueueGet key false; CallSyncFn key] ++ t ++ [CallQueueDone key])
  end
  /\ forall c0,
       syncFn c = sync c0 ->
       outcomeOf run = Returned true
       /\ calls (CallSyncFn key) (traceOf run) = 1
       /\ calls (CallQueueDone key) (traceOf run) = 1
       /\ (outcomeOf (sync c0 key w1) = Returned None ->
           calls (CallQueueForget key) (traceOf run) = 1
           /\ calls (CallQueueAddRateLimited key) (traceOf run) = 0)
       /\ (forall err,
             outcomeOf (sync c0 key w1) = Returned (Some err) ->
             calls (CallQueueAddRateLimited key) (traceOf run) = 1
             /\ calls (CallQueueForget key) (traceOf run) = 0).
Proof.
  intros Hget. cbn zeta.
  rewrite (processNextWorkItem_delivered _ _ _ _ Hget). split.
  { by destruct (syncFn c key (withQueue (fun _ => q') w))
      as [[[[err|]|reason] w2] t]. }
  intros c0 ->.
  pose proof (calls_sync_trace c0 key (withQueue (fun _ => q') w)) as Hcalls.
  destruct (sync_returns c0 key (withQueue (fun _ => q') w))
    as (result & m & t & Hrun & _).
  rewrite Hrun in *. unfold outcomeOf, traceOf in *. cbn [fst snd] in *.
  destruct result as [err|]; cbn [fst snd];
    (split; [reflexivity|]);
    rewrite !calls_app, !Hcalls by discriminate;
    repeat split; intros; simplify_eq; by count_calls.
Qed.

End RunLoopProperties.

Section ScriptedRunProperties.
Context {M : Type}.
Context `{!APIHandlerManager M}.
Implicit Types (c : APIServiceRegistrationController M (list string)).

Lemma runWorker_S fuel c w :
  runWorker (S fuel) c w =
    match processNextWorkItem c w with
    | (Returned true, w1, t1) =>
        match runWorker fuel c w1 with
        | (r, w2, t2) => (r, w2, t1 ++ t2)
        end
    | (Returned false, w1, t1) => (Returned (Some tt), w1, t1 ++ [])
    | (Panicked reason, w1, t1) => (Panicked reason, w1, t1)
    end.
Proof.
  cbn [runWorker]. unfold mbind, Ctl_bind, bind.
  by destruct (processNextWorkItem c w) as [[[[|]|reason] w1] t1].
Qed.

(** X16.  The worker on a queue that delivers [keys] and then shuts down:
    with [sync] as the sync function, and a bound of one more iteration
    than there are keys, it returns; it has called the sync function for
    every key, in order, whether the syncs fail or not, and has stopped at
    the shutdown. *)
Lemma runWorker_drains_script c c0 (keys : list string) (m : M) :
  syncFn c = sync c0 ->
  exists w' t,
    runWorker (S (length keys)) c {| apiHandlerManager := m; queue := keys |}
      = (Returned (Some tt), w', t)
    /\ queue w' = []
    /\ syncCalls t = keys.
Proof.
  intros Hsync. revert m. induction keys as [|key keys IH]; intros m.
  - eexists _, _. rewrite runWorker_S.
    rewrite (processNextWorkItem_shutdown _ _ "" []) by reflexivity.
    done.
  - cbn [length]. rewrite runWorker_S.
    rewrite (processNextWorkItem_delivered _ _ key keys) by reflexivity.
    rewrite Hsync.
    destruct (sync_returns c0 key
                (withQueue (fun _ => keys) {| apiHandlerManager := m; queue := key :: keys |}))
      as (err & m' & t1 & -> & Ht1).
    destruct (IH m') as (w' & t & Hrun & Hqueue & Ht).
    destruct err as [err|]; unfold withQueue, withHandlers;
      cbn [apiHandlerManager queue
           workqueue.Done workqueue.Forget workqueue.AddRateLimited scriptedQueue];
      rewrite Hrun; eexists _, _; (split; [reflexivity|]); (split; [exact Hqueue|]);
      unfold syncCalls in *; cbn [omap list_omap app];
      rewrite !omap_app, Ht1, Ht; reflexivity.
Qed.

End ScriptedRunProperties.


(** ** The registered-endpoint set *)

Section EndpointSetProperties.
Context {Q : Type}.
Context `{!workqueue.RateLimitingInterface Q}.
Implicit Types (c : APIServiceRegistrationController (gmap string string) Q).
Implicit Types (w : World (gmap string string) Q).
Implicit Types (steps : list (APIServiceRegistrationController (gmap string string) Q * string)).
Implicit Types (errs : list (option error)).
Implicit Types (key : string) (apiService : APIService).

Lemma noSuccessfulSync_cons c0 key0 err0 steps errs key :
  noSuccessfulSync ((c0, key0) :: steps) (err0 :: errs) key <->
  (key0 = key -> err0 <> None) /\ noSuccessfulSync steps errs key.
Proof.
  unfold noSuccessfulSync. split.
  - intros Hno. split.
    + intros -> ->. by apply (Hno 0 c0).
    + intros j c' Hj. by apply (Hno (S j) c').
  - intros [Hhead Hrest] [|j] c' Hj; cbn in *.
    + injection Hj as -> ->. intros [= ->]. by apply Hhead.
    + by eapply Hrest.
Qed.

Lemma lastSuccessfulSync_cons_S c0 key0 err0 steps errs key i c :
  lastSuccessfulSync ((c0, key0) :: steps) (err0 :: errs) key (S i) c <->
  lastSuccessfulSync steps errs key i c.
Proof.
  unfold lastSuccessfulSync. cbn. split.
  - intros (Hstep & Herr & Hlater). repeat split; [done..|].
    intros j c' Hlt Hj. apply (Hlater (S j) c'); [lia|done].
  - intros (Hstep & Herr & Hlater). repeat split; [done..|].
    intros [|j] c' Hlt Hj; [lia|]. cbn in *. apply (Hlater j c'); [lia|done].
Qed.

Lemma lastSuccessfulSync_cons_0 c0 key0 err0 steps errs key c :
  lastSuccessfulSync ((c0, key0) :: steps) (err0 :: errs) key 0 c <->
  c0 = c /\ key0 = key /\ err0 = None /\ noSuccessfulSync steps errs key.
Proof.
  unfold lastSuccessfulSync, noSuccessfulSync. cbn. split.
  - intros ([= -> ->] & [= ->] & Hlater). repeat split.
    intros j c' Hj. apply (Hlater (S j) c'); [lia|done].
  - intros (-> & -> & -> & Hno). repeat split.
    intros [|j] c' Hlt Hj; [lia|]. cbn in *. by eapply Hno.
Qed.

Lemma exists_lastSuccessfulSync_cons
    (P : APIServiceRegistrationController (gmap string string) Q -> APIService -> Prop) c0 key0 err0 steps errs key :
  (exists i c apiService,
     lastSuccessfulSync ((c0, key0) :: steps) (err0 :: errs) key i c /\ P c apiService)
  <-> (key0 = key /\ err0 = None /\ noSuccessfulSync steps errs key
       /\ exists apiService, P c0 apiService)
      \/ (exists i c apiService,
            lastSuccessfulSync steps errs key i c /\ P c apiService).
Proof.
  split.
  - intros ([|i] & c & apiService & Hlast & HP).
    + apply lastSuccessfulSync_cons_0 in Hlast as (-> & -> & -> & Hno).
      left. eauto.
    + apply lastSuccessfulSync_cons_S in Hlast. right. eauto.
  - intros [(-> & -> & Hno & apiService & HP)|(i & c & apiService & Hlast & HP)].
    + exists 0, c0, apiService. split; [|done].
      by apply lastSuccessfulSync_cons_0.
    + exists (S i), c, apiService. split; [|done].
      by apply lastSuccessfulSync_cons_S.
Qed.

(** One sync on the registered-endpoint set: a sync that fails leaves the
    set alone; a sync of [key0] that succeeds leaves [key0] registered
    exactly when the registration was found and available, with the
    destination resolved at that moment, and leaves the other keys alone. *)
Lemma sync_endpoints c key0 w :
  coherent c ->
  exists err w1 t1,
    sync c key0 w = (Returned err, w1, t1)
    /\ queue w1 = queue w
    /\ (err <> None -> w1 = w)
    /\ (err = None ->
        forall key destinationHost,
          apiHandlerManager w1 !! key = Some destinationHost <->
          (key = key0
           /\ exists apiService,
                lookupFinds c key0 apiService
                /\ IsAPIServiceConditionTrue apiService Available = true
                /\ destinationHost = getDestinationHost c apiService)
          \/ (key <> key0 /\ apiHandlerManager w !! key = Some destinationHost)).
Proof.
  intros Hc. rewrite sync_cases. unfold lookupFinds.
  destruct (listers.Get (apiServiceLister c) key0)
    as [apiService|[message|message]] eqn:Hget.
  - pose proof (Hc _ _ Hget) as Hname.
    destruct (IsAPIServiceConditionTrue apiService Available) eqn:Hcond.
    + eexists _, _, _. split; [reflexivity|]. split; [reflexivity|].
      split; [done|]. intros _ key destinationHost. cbn.
      rewrite Hname, lookup_insert. case_decide as Hkey.
      * subst key. split.
        -- intros [= <-]. left. split; [done|]. by exists apiService.
        -- intros [[_ (a & [= <-] & _ & ->)]|[Hne _]]; done.
      * split.
        -- intros Hw. right. by split.
        -- intros [[-> _]|[_ Hw]]; done.
    + eexists _, _, _. split; [reflexivity|]. split; [reflexivity|].
      split; [done|]. intros _ key destinationHost. cbn.
      rewrite lookup_delete. case_decide as Hkey.
      * subst key. split; [done|].
        intros [[_ (a & [= <-] & Ha & _)]|[Hne _]]; [cbn in *; congruence|done].
      * split.
        -- intros Hw. right. by split.
        -- intros [[-> _]|[_ Hw]]; done.
  - eexists _, _, _. split; [reflexivity|]. split; [reflexivity|].
    split; [done|]. intros _ key destinationHost. cbn.
    rewrite lookup_delete. case_decide as Hkey.
    + subst key. split; [done|].
      intros [[_ (a & [=] & _)]|[Hne _]]; done.
    + split.
      * intros Hw. right. by split.
      * intros [[-> _]|[_ Hw]]; done.
  - eexists _, _, _. split; [reflexivity|]. split; [reflexivity|].
    split; [done|]. intros [=].
Qed.

Lemma syncAll_endpoints steps w :
  Forall (fun step => coherent step.1) steps ->
  exists errs w' t,
    syncAll steps w = (Returned errs, w', t)
    /\ length errs = length steps
    /\ queue w' = queue w
    /\ forall key destinationHost,
         apiHandlerManager w' !! key = Some destinationHost <->
         (exists i c apiService,
            lastSuccessfulSync steps errs key i c
            /\ lookupFinds c key apiService
            /\ IsAPIServiceConditionTrue apiService Available = true
            /\ destinationHost = getDestinationHost c apiService)
         \/ (apiHandlerManager w !! key = Some destinationHost
             /\ noSuccessfulSync steps errs key).
Proof.
  intros Hsteps. revert w.
  induction Hsteps as [|[c0 key0] steps Hc0 _ IH]; intros w.
  { exists [], w, []. repeat split.
    - intros Hw. right. split; [done|]. by intros j c' Hj.
    - intros [(i & c & apiService & (Hi & _) & _)|[Hw _]]; [|done].
      by rewrite lookup_nil in Hi. }
  cbn [fst] in Hc0. rewrite syncAll_cons.
  destruct (sync_endpoints c0 key0 w Hc0)
    as (err0 & w1 & t1 & -> & Hq1 & Hfail & Hsucc).
  destruct (IH w1) as (errs & w' & t & -> & Hlen & Hq & Hiff).
  exists (err0 :: errs), w', (t1 ++ t).
  split; [reflexivity|]. split; [cbn; by rewrite Hlen|].
  split; [congruence|].
  intros key destinationHost. rewrite Hiff.
  pose proof (exists_lastSuccessfulSync_cons
                (fun c apiService =>
                   lookupFinds c key apiService
                   /\ IsAPIServiceConditionTrue apiService Available = true
                   /\ destinationHost = getDestinationHost c apiService)
                c0 key0 err0 steps errs key) as Hcons.
  cbn beta in Hcons. rewrite Hcons, noSuccessfulSync_cons.
  destruct err0 as [err|].
  - rewrite Hfail by done. split.
    + intros [Hlast|[Hw Hno]]; [by left; right|].
      right. by repeat split.
    + intros [[(_ & [=] & _)|Hlast]|(Hw & _ & Hno)]; [by left|by right].
  - specialize (Hsucc eq_refl key destinationHost). rewrite Hsucc. split.
    + intros [Hlast|[[[-> Hfound]|[Hne Hw]] Hno]].
      * by left; right.
      * left; left. by repeat split.
      * right. by repeat split.
    + intros [[(-> & _ & Hno & Hfound)|Hlast]|(Hw & Hne & Hno)].
      * right. split; [|done]. left. by split.
      * by left.
      * right. split; [|done]. right. split; [|done].
        intros ->. by apply Hne.
Qed.

(** C5.  After any sequence of syncs that starts from the empty
    registered-endpoint set, each against registration and service caches
    that keep every registration under its own name, a key is in the set
    if and only if the run has a last successful sync of that key and, at
    that sync, the registration cache held a registration under the key
    whose Available condition was true.  The run itself always returns,
    with one result per sync. *)
Theorem registered_iff_last_successful_sync_found_available steps (q : Q) key :
  Forall (fun step => coherent step.1) steps ->
  let run := syncAll steps {| apiHandlerManager := ∅; queue := q |} in
  exists errs,
    outcomeOf run = Returned errs
    /\ length errs = length steps
    /\ (key ∈ dom (apiHandlerManager (worldOf run)) <->
        exists i c apiService,
          lastSuccessfulSync steps errs key i c
          /\ lookupFinds c key apiService
          /\ IsAPIServiceConditionTrue apiService Available = true).
Proof.
  intros Hsteps. cbn zeta.
  destruct (syncAll_endpoints steps {| apiHandlerManager := ∅; queue := q |} Hsteps)
    as (errs & w' & t & -> & Hlen & _ & Hiff).
  exists errs. split; [reflexivity|]. split; [exact Hlen|].
  unfold worldOf. cbn [fst snd]. rewrite elem_of_dom. split.
  - intros [destinationHost Hw]. apply Hiff in Hw
      as [(i & c & apiService & Hlast & Hfound & Hcond & _)|[Hw _]].
    + by exists i, c, apiService.
    + cbn in Hw. by rewrite lookup_empty in Hw.
  - intros (i & c & apiService & Hlast & Hfound & Hcond).
    exists (getDestinationHost c apiService). apply Hiff. left.
    by exists i, c, apiService.
Qed.

End EndpointSetProperties.

(** ** The properties at work on the example objects *)

Lemma controllerOf_coherent apiServices services :
  coherent (controllerOf apiServices services).
Proof.
  intros key apiService. unfold lookupFinds. cbn.
  destruct (List.find _ apiServices) as [found|] eqn:Hfind; [|discriminate].
  intros [= <-]. apply find_some in Hfind as [_ Hname].
  by apply bool_decide_eq_true in Hname.
Qed.

(** The scenario of the specification: [R1] is available and refers to
    [svcA], a load balancer at 1.2.3.4; then [R1] is deleted. *)
Example scenario_sync_then_delete :
  syncAll [(controllerOf [R1] [svcA], "R1"); (controllerOf [] [svcA], "R1")] emptyWorld
  = (Returned [None; None], emptyWorld,
     [CallAddAPIService R1 "1.2.3.4"; CallRemoveAPIService "R1"]).
Proof. vm_compute. reflexivity. Qed.

Example scenario_endpoints_after_install :
  apiHandlerManager (worldOf (syncAll (take 1 installThenDelete) emptyWorld))
  = {[ "R1" := "1.2.3.4" ]}.
Proof. vm_compute. reflexivity. Qed.

Example scenario_endpoints_after_delete :
  apiHandlerManager (worldOf (syncAll installThenDelete emptyWorld)) = ∅.
Proof. vm_compute. reflexivity. Qed.

Example resolution_without_service :
  getDestinationHost (controllerOf [R1] []) R1 = "svcA.ns1.svc".
Proof. reflexivity. Qed.

Example resolution_unrecognized_type :
  getDestinationHost (controllerOf [R1] [svcA_external]) R1 = "svcA.ns1.svc".
Proof. reflexivity. Qed.

Lemma sync_absent_registration_removes_witness :
  Forall (fun c => lookupNotFound c "R1") absentR1
  /\ traceOf (syncAll ((fun c => (c, "R1")) <$> absentR1) emptyWorld)
     = [CallRemoveAPIService "R1"; CallRemoveAPIService "R1"; CallRemoveAPIService "R1"].
Proof.
  assert (Hcs : Forall (fun c => lookupNotFound c "R1") absentR1)
    by (repeat constructor; by eexists).
  split; [exact Hcs|].
  exact (proj1 (proj2 (sync_absent_registration_removes absentR1 "R1" emptyWorld Hcs))).
Defined.

Lemma sync_unavailable_registration_removes_witness :
  lookupFinds (controllerOf [R1_unavailable] [svcA]) "R1" R1_unavailable
  /\ IsAPIServiceConditionTrue R1_unavailable Available = false
  /\ sync (controllerOf [R1_unavailable] [svcA]) "R1" emptyWorld
     = (Returned None, withHandlers (RemoveAPIService "R1") emptyWorld,
        [CallRemoveAPIService "R1"]).
Proof.
  split; [reflexivity|]. split; [reflexivity|].
  exact (proj1 (sync_unavailable_registration_removes
                  (controllerOf [R1_unavailable] [svcA]) "R1" R1_unavailable emptyWorld
                  eq_refl eq_refl)).
Defined.

Lemma sync_available_without_service_adds_empty_host_witness :
  lookupFinds (controllerOf [Rlocal] []) "Rlocal" Rlocal
  /\ IsAPIServiceConditionTrue Rlocal Available = true
  /\ Service (Spec Rlocal) = None
  /\ sync (controllerOf [Rlocal] []) "Rlocal" emptyWorld
     = (Returned None, withHandlers (AddAPIService Rlocal "") emptyWorld,
        [CallAddAPIService Rlocal ""]).
Proof.
  split; [reflexivity|]. split; [reflexivity|]. split; [reflexivity|].
  exact (proj1 (proj2 (sync_available_without_service_adds_empty_host
                         (controllerOf [Rlocal] []) "Rlocal" Rlocal emptyWorld
                         eq_refl eq_refl eq_refl))).
Defined.

Lemma processNextWorkItem_forgets_or_requeues_and_continues_witness :
  workqueue.Get (queue (withQueue (fun _ => ["R1"]) emptyWorld)) = ("R1", false, [])
  /\ calls (CallQueueDone "R1")
       (traceOf (processNextWorkItem (controllerOf [R1] [svcA])
                   (withQueue (fun _ => ["R1"]) emptyWorld))) = 1.
Proof.
  split; [reflexivity|].
  exact (proj1 (proj2 (proj2
    (proj2 (processNextWorkItem_forgets_or_requeues_and_continues
              (controllerOf [R1] [svcA]) (withQueue (fun _ => ["R1"]) emptyWorld)
              "R1" [] eq_refl)
       (controllerOf [R1] [svcA]) eq_refl)))).
Defined.

Lemma registered_iff_last_successful_sync_found_available_witness :
  Forall (fun step => coherent step.1) installThenDelete
  /\ exists errs,
       outcomeOf (syncAll installThenDelete emptyWorld) = Returned errs
       /\ length errs = length installThenDelete
       /\ ("R1" ∈ dom (apiHandlerManager (worldOf (syncAll installThenDelete emptyWorld))) <->
           exists i c apiService,
             lastSuccessfulSync installThenDelete errs "R1" i c
             /\ lookupFinds c "R1" apiService
             /\ IsAPIServiceConditionTrue apiService Available = true).
Proof.
  assert (Hsteps : Forall (fun step => coherent step.1) installThenDelete)
    by (repeat constructor; apply controllerOf_coherent).
  split; [exact Hsteps|].
  exact (registered_iff_last_successful_sync_found_available
           installThenDelete [] "R1" Hsteps).
Defined.

Lemma getDestinationHost_resolution_witness :
  Service (Spec R1) = Some svcA_ref
  /\ lookupService (controllerOf [R1] [svcA]) svcA_ref = inl svcA
  /\ api.Type_ (api.Spec svcA)
       ∈ [api.ServiceTypeClusterIP; api.ServiceTypeNodePort; api.ServiceTypeLoadBalancer]
  /\ getDestinationHost (controllerOf [R1] [svcA]) R1 = "1.2.3.4".
Proof.
  assert (Htype : api.Type_ (api.Spec svcA)
                    ∈ [api.ServiceTypeClusterIP; api.ServiceTypeNodePort;
                       api.ServiceTypeLoadBalancer])
    by (do 2 apply list_elem_of_further; apply list_elem_of_here).
  split; [reflexivity|]. split; [reflexivity|]. split; [exact Htype|].
  exact (proj1 (proj2 (proj2 (getDestinationHost_resolution (controllerOf [R1] [svcA]) R1)
                         svcA_ref eq_refl) svcA eq_refl) Htype).
Defined.

Lemma service_event_enqueues_referencing_registrations_witness :
  getAPIServicesFor (controllerOf [R1; R2; Rlocal] [svcA]) svcA = [R1]
  /\ addService (controllerOf [R1; R2; Rlocal] [svcA]) (cache.ServicePtr svcA) emptyWorld
     = (Returned tt, emptyWorld, [CallQueueAdd "R1"]).
Proof.
  split; [reflexivity|].
  exact (proj1 (proj2 (proj2 (proj2
    (service_event_enqueues_referencing_registrations
       (controllerOf [R1; R2; Rlocal] [svcA]) svcA (cache.Other "old") "ns1/svcA"
       emptyWorld))))).
Defined.

Lemma sync_error_iff_lookup_fails_witness :
  lookupFails (failingController (ErrOther "timeout")) "R1" (ErrOther "timeout")
  /\ outcomeOf (sync (failingController (ErrOther "timeout")) "R1" emptyWorld)
     = Returned (Some (ErrOther "timeout")).
Proof.
  assert (Hfails : lookupFails (failingController (ErrOther "timeout")) "R1"
                     (ErrOther "timeout")) by (split; reflexivity).
  split; [exact Hfails|].
  exact (proj2 (proj1 (sync_error_iff_lookup_fails
                         (failingController (ErrOther "timeout")) "R1" emptyWorld)
                  (ErrOther "timeout")) Hfails).
Defined.

Lemma malformed_delete_is_logged_and_dropped_witness :
  malformedDelete cache.APIServicePtr
    (cache.DeletedFinalStateUnknown "ns1/svcA" (cache.ServicePtr svcA))
  /\ (exists format,
        deleteAPIService
          (cache.DeletedFinalStateUnknown "ns1/svcA" (cache.ServicePtr svcA)) emptyWorld
        = (Returned tt, emptyWorld, [GlogErrorf format]))
  /\ deleteService (controllerOf [R1; R2; Rlocal] [svcA])
       (cache.DeletedFinalStateUnknown "ns1/svcA" (cache.ServicePtr svcA)) emptyWorld
     = (Returned tt, emptyWorld, [CallQueueAdd "R1"]).
Proof.
  assert (Hmalformed : malformedDelete cache.APIServicePtr
                         (cache.DeletedFinalStateUnknown "ns1/svcA" (cache.ServicePtr svcA)))
    by (split; intros; discriminate).
  pose proof (malformed_delete_is_logged_and_dropped
                (controllerOf [R1; R2; Rlocal] [svcA]) emptyWorld)
    as (Hregistration & _ & _ & Hservice).
  split; [exact Hmalformed|]. split; [exact (Hregistration _ Hmalformed)|].
  destruct (Hservice "ns1/svcA" svcA) as [Htombstone Hlive].
  exact (eq_trans Htombstone Hlive).
Defined.

(** ** More on the Sync Engine *)

Section MoreSyncProperties.
Context {M Q : Type}.
Context `{!APIHandlerManager M, !workqueue.RateLimitingInterface Q}.
Implicit Types (c : APIServiceRegistrationController M Q) (w : World M Q).
Implicit Types (key : string) (apiService : APIService).

(** X1.  When the registration cache holds under [key] a registration whose
    Available condition is true, [sync] returns nil and its only call is
    [AddAPIService] with that registration and the destination host
    resolved at that moment; it calls no [RemoveAPIService]. *)
Theorem sync_available_registration_adds c key apiService w :
  lookupFinds c key apiService ->
  IsAPIServiceConditionTrue apiService Available = true ->
  sync c key w =
    (Returned None,
     withHandlers (AddAPIService apiService (getDestinationHost c apiService)) w,
     [CallAddAPIService apiService (getDestinationHost c apiService)])
  /\ forall name, CallRemoveAPIService name ∉ traceOf (sync c key w).
Proof.
  intros Hget Hcond.
  assert (Hrun : sync c key w =
                 (Returned None,
                  withHandlers (AddAPIService apiService (getDestinationHost c apiService)) w,
                  [CallAddAPIService apiService (getDestinationHost c apiService)]))
    by (rewrite sync_cases, Hget, Hcond; reflexivity).
  rewrite Hrun. split; [reflexivity|].
  intros name Hin. cbn in Hin. apply list_elem_of_singleton in Hin. discriminate.
Qed.

(** X2.  What [sync] returns depends on the registration cache alone: two
    controllers with the same registration lister return the same result
    for a key, whatever their service caches answer, also when the service
    lookup fails, and whatever the state of the handler manager and of the
    queue. *)
Theorem sync_result_ignores_service_cache c c' key w w' :
  apiServiceLister c = apiServiceLister c' ->
  outcomeOf (sync c key w) = outcomeOf (sync c' key w').
Proof.
  intros Hlister. rewrite !sync_cases, Hlister.
  destruct (listers.Get (apiServiceLister c') key) as [apiService|[message|message]];
    [destruct (IsAPIServiceConditionTrue apiService Available)|..]; reflexivity.
Qed.

(** X3.  A [sync] never touches the queue.  When it returns nil it has made
    exactly one call, to the handler manager; a [RemoveAPIService] it makes
    is for [key] itself, and an [AddAPIService] it makes carries the
    registration that the cache holds under [key]. *)
Theorem sync_one_handler_call_spares_queue c key w :
  queue (worldOf (sync c key w)) = queue w
  /\ (outcomeOf (sync c key w) = Returned None ->
      exists e, traceOf (sync c key w) = [e] /\ isHandlerManagerCall e = true)
  /\ (forall name,
        CallRemoveAPIService name ∈ traceOf (sync c key w) -> name = key)
  /\ (forall apiService destinationHost,
        CallAddAPIService apiService destinationHost ∈ traceOf (sync c key w) ->
        lookupFinds c key apiService
        /\ destinationHost = getDestinationHost c apiService).
Proof.
  rewrite sync_cases. unfold lookupFinds, outcomeOf, traceOf, worldOf.
  destruct (listers.Get (apiServiceLister c) key) as [found|[message|message]];
    [destruct (IsAPIServiceConditionTrue found Available)|..]; cbn [fst snd];
    (split; [reflexivity|]);
    (split; [intros Hnil; try discriminate; by eexists|]);
    (split; [intros name Hin|intros apiService destinationHost Hin]);
    first [ apply list_elem_of_singleton in Hin; by simplify_eq
          | by apply elem_of_nil in Hin ].
Qed.

End MoreSyncProperties.

(** ** More on the registered-endpoint set *)

Section MoreEndpointSetProperties.
Context {Q : Type}.
Context `{!workqueue.RateLimitingInterface Q}.
Implicit Types (c : APIServiceRegistrationController (gmap string string) Q).
Implicit Types (w : World (gmap string string) Q).
Implicit Types (steps : list (APIServiceRegistrationController (gmap string string) Q * string)).
Implicit Types (key : string) (apiService : APIService).

(** The entry that the caches of [c] give [key]: the resolved destination
    of the registration found under [key] when it is available, and none
    otherwise. *)
Lemma sync_entry c key w :
  coherent c ->
  outcomeOf (sync c key w) = Returned None ->
  apiHandlerManager (worldOf (sync c key w)) !! key =
    match listers.Get (apiServiceLister c) key with
    | inl apiService =>
        if IsAPIServiceConditionTrue apiService Available
        then Some (getDestinationHost c apiService)
        else None
    | inr _ => None
    end.
Proof.
  intros Hc. rewrite sync_cases. unfold outcomeOf, worldOf.
  destruct (listers.Get (apiServiceLister c) key) as [apiService|[message|message]] eqn:Hget;
    [destruct (IsAPIServiceConditionTrue apiService Available)|..]; cbn; intros Hnil.
  - rewrite (Hc _ _ Hget). apply lookup_insert_eq.
  - apply lookup_delete_eq.
  - apply lookup_delete_eq.
  - discriminate.
Qed.

Lemma sync_other_entries c key key' w :
  coherent c ->
  key' <> key ->
  apiHandlerManager (worldOf (sync c key w)) !! key' = apiHandlerManager w !! key'.
Proof.
  intros Hc Hne. rewrite sync_cases. unfold worldOf.
  destruct (listers.Get (apiServiceLister c) key) as [apiService|[message|message]] eqn:Hget;
    [destruct (IsAPIServiceConditionTrue apiService Available)|..]; cbn.
  - rewrite (Hc _ _ Hget). by apply lookup_insert_ne.
  - by apply lookup_delete_ne.
  - by apply lookup_delete_ne.
  - reflexivity.
Qed.

(** X4.  On a handler manager that installs, replaces and removes entries
    by name, and with a registration cache that keeps every registration
    under its own name, a [sync] of [key] that returns nil leaves under
    [key] what the caches say now, whatever was there before: the resolved
    destination when the registration is found and available, nothing
    otherwise.  The entries of all other keys are as they were, whether the
    sync fails or not. *)
Theorem sync_sets_entry_from_current_state c key w :
  coherent c ->
  (outcomeOf (sync c key w) = Returned None ->
   apiHandlerManager (worldOf (sync c key w)) !! key =
     match listers.Get (apiServiceLister c) key with
     | inl apiService =>
         if IsAPIServiceConditionTrue apiService Available
         then Some (getDestinationHost c apiService)
         else None
     | inr _ => None
     end)
  /\ forall key',
       key' <> key ->
       apiHandlerManager (worldOf (sync c key w)) !! key' = apiHandlerManager w !! key'.
Proof.
  intros Hc. split.
  - by apply sync_entry.
  - intros key' Hne. by apply sync_other_entries.
Qed.

(** X5.  Reconciling is idempotent on such a handler manager: a second
    [sync] of the same key against the same caches returns what the first
    returned and leaves the handler manager and the queue as the first left
    them. *)
Theorem sync_twice_is_sync_once c key w :
  outcomeOf (sync c key (worldOf (sync c key w))) = outcomeOf (sync c key w)
  /\ worldOf (sync c key (worldOf (sync c key w))) = worldOf (sync c key w).
Proof.
  rewrite !sync_cases. unfold outcomeOf, worldOf.
  destruct (listers.Get (apiServiceLister c) key) as [apiService|[message|message]];
    [destruct (IsAPIServiceConditionTrue apiService Available)|..];
    cbn; (split; [reflexivity|]); unfold withHandlers; cbn; try reflexivity.
  - by rewrite insert_insert_eq.
  - by rewrite delete_delete_eq.
  - by rewrite delete_delete_eq.
Qed.

(** X6.  Reconciliations of two different keys commute on such a handler
    manager when the registration caches keep every registration under its
    own name: the two orders leave the same handler manager and queue. *)
Theorem sync_distinct_keys_commute c1 c2 key1 key2 w :
  coherent c1 ->
  coherent c2 ->
  key1 <> key2 ->
  worldOf (sync c2 key2 (worldOf (sync c1 key1 w)))
  = worldOf (sync c1 key1 (worldOf (sync c2 key2 w))).
Proof.
  intros Hc1 Hc2 Hne. rewrite !sync_cases. unfold worldOf.
  destruct (listers.Get (apiServiceLister c1) key1) as [a1|[message1|message1]] eqn:Hget1;
    [pose proof (Hc1 _ _ Hget1) as Hname1;
     destruct (IsAPIServiceConditionTrue a1 Available)|..];
    (destruct (listers.Get (apiServiceLister c2) key2) as [a2|[message2|message2]] eqn:Hget2;
     [pose proof (Hc2 _ _ Hget2) as Hname2;
      destruct (IsAPIServiceConditionTrue a2 Available)|..]);
    cbn; unfold withHandlers; cbn; try reflexivity; f_equal.
  all: try (rewrite Hname1); try (rewrite Hname2).
  - by apply insert_insert_ne.
  - by rewrite delete_insert_ne.
  - by rewrite delete_insert_ne.
  - by rewrite delete_insert_ne.
  - by apply delete_delete.
  - by apply delete_delete.
  - by rewrite delete_insert_ne.
  - by apply delete_delete.
  - by apply delete_delete.
Qed.

(** X7.  After any sequence of syncs that starts from the empty set, each
    against caches that keep every registration under its own name, the
    destination registered for a key is the one resolved at the last
    successful sync of that key, from the registration then found
    available; a key that has no such sync has no entry. *)
Theorem registered_destination_is_last_resolved steps (q : Q) key destinationHost :
  Forall (fun step => coherent step.1) steps ->
  let run := syncAll steps {| apiHandlerManager := ∅; queue := q |} in
  exists errs,
    outcomeOf run = Returned errs
    /\ (apiHandlerManager (worldOf run) !! key = Some destinationHost <->
        exists i c apiService,
          lastSuccessfulSync steps errs key i c
          /\ lookupFinds c key apiService
          /\ IsAPIServiceConditionTrue apiService Available = true
          /\ destinationHost = getDestinationHost c apiService).
Proof.
  intros Hsteps. cbn zeta.
  destruct (syncAll_endpoints steps {| apiHandlerManager := ∅; queue := q |} Hsteps)
    as (errs & w' & t & -> & _ & _ & Hiff).
  exists errs. split; [reflexivity|].
  unfold worldOf. cbn [fst snd]. rewrite Hiff. split.
  - intros [Hlast|[Hw _]]; [done|]. cbn in Hw. by rewrite lookup_empty in Hw.
  - intros Hlast. by left.
Qed.

End MoreEndpointSetProperties.

(** ** More on the Resolver *)

Section MoreResolverProperties.
Context {M Q : Type}.
Context `{!APIHandlerManager M, !workqueue.RateLimitingInterface Q}.
Implicit Types (c : APIServiceRegistrationController M Q).

Lemma dns_name_not_empty (ref : ServiceReference.t) :
  ServiceReference.Name ref +:+ "." +:+ ServiceReference.Namespace ref +:+ ".svc" <> "".
Proof. by destruct (ServiceReference.Name ref). Qed.

(** X8.  The resolved destination host is the empty string in two cases
    only: the registration has no service reference, or the service it
    refers to is found, is of type ClusterIP, NodePort or LoadBalancer, and
    has an empty cluster IP.  A failing service lookup and a service of any
    other type always give a destination that is not empty. *)
Theorem getDestinationHost_empty_iff c apiService :
  getDestinationHost c apiService = "" <->
  Service (Spec apiService) = None
  \/ exists ref service,
       Service (Spec apiService) = Some ref
       /\ lookupService c ref = inl service
       /\ usesClusterIP service
       /\ api.ClusterIP (api.Spec service) = "".
Proof.
  unfold getDestinationHost, lookupService, usesClusterIP.
  destruct (Service (Spec apiService)) as [ref|]; [|split; [by left|done]].
  pose proof (dns_name_not_empty ref) as Hdns.
  destruct (internallisters.Get _ _) as [service|err] eqn:Hsvc.
  - repeat case_bool_decide; cbn [orb]; split.
    all: try (intros Hempty; right; exists ref, service;
              split; [reflexivity|]; split; [exact Hsvc|];
              split; [rewrite !elem_of_cons; tauto|exact Hempty]).
    all: try (intros [[=]|(ref' & service' & [= <-] & Hsvc' & _ & Hip)];
              rewrite Hsvc in Hsvc'; injection Hsvc' as <-; exact Hip).
    + intros Hempty. exfalso. apply Hdns. exact Hempty.
    + intros [[=]|(ref' & service' & [= <-] & Hsvc' & Htype & _)].
      rewrite Hsvc in Hsvc'. injection Hsvc' as <-.
      rewrite !elem_of_cons, elem_of_nil in Htype. exfalso. tauto.
  - split.
    + intros Hempty. exfalso. apply Hdns. exact Hempty.
    + intros [[=]|(ref' & service' & [= <-] & Hsvc' & _)].
      rewrite Hsvc in Hsvc'. discriminate.
Qed.

End MoreResolverProperties.

(** ** More on the Event Router *)

Section MoreRouterProperties.
Context {M Q : Type}.
Context `{!APIHandlerManager M, !workqueue.RateLimitingInterface Q}.
Implicit Types (c : APIServiceRegistrationController M Q) (w : World M Q).
Implicit Types (apiService : APIService) (service : api.Service) (obj other : cache.Object).

(** X9.  The add and the update handler of registrations assert the type
    of their first argument without a check.  Handed a registration, they
    log it and add its name to the queue, once; handed anything else, a
    tombstone included, they panic, having made no call and changed
    nothing.  The update handler never reads its second argument. *)
Theorem registration_add_update_enqueue_or_panic obj other w :
  (forall apiService,
     obj = cache.APIServicePtr apiService ->
     addAPIService obj w
       = (Returned tt, withQueue (workqueue.Add (Name apiService)) w,
          [GlogV4Infof "Adding %s" (Name apiService); CallQueueAdd (Name apiService)])
     /\ updateAPIService obj other w
          = (Returned tt, withQueue (workqueue.Add (Name apiService)) w,
             [GlogV4Infof "Updating %s" (Name apiService);
              CallQueueAdd (Name apiService)]))
  /\ ((forall apiService, obj <> cache.APIServicePtr apiService) ->
      exists reason,
        addAPIService obj w = (Panicked reason, w, [])
        /\ updateAPIService obj other w = (Panicked reason, w, [])).
Proof.
  split.
  - intros apiService ->. split; reflexivity.
  - intros Hother.
    destruct obj as [apiService|service|tombstoneKey tombstoneObj|dynamicType];
      first [by destruct (Hother apiService) | by eexists].
Qed.

(** X10.  The update handler of services is the add handler applied to
    its first argument: for every payload the two do the same, whatever the
    second argument.  Both assert the type of that argument without a
    check, so a payload that is not a service, also a tombstone around a
    service, which the delete handler unwraps, makes them panic, having
    made no call and changed nothing. *)
Theorem service_add_update_agree_and_panic_on_other_payload c obj other w :
  updateService c obj other w = addService c obj w
  /\ ((forall service, obj <> cache.ServicePtr service) ->
      exists reason, addService c obj w = (Panicked reason, w, []))
  /\ (forall tombstoneKey service,
        obj = cache.DeletedFinalStateUnknown tombstoneKey (cache.ServicePtr service) ->
        deleteService c obj w = addService c (cache.ServicePtr service) w).
Proof.
  split; [reflexivity|]. split.
  - intros Hother.
    destruct obj as [apiService|service|tombstoneKey tombstoneObj|dynamicType];
      first [by destruct (Hother service) | by eexists].
  - intros tombstoneKey service ->. reflexivity.
Qed.

Lemma foldl_add_handlers (l : list APIService) w :
  apiHandlerManager
    (foldl (fun w' apiService => withQueue (workqueue.Add (Name apiService)) w') w l)
  = apiHandlerManager w.
Proof. revert w. induction l as [|apiService l IH]; intros w; [done|]. cbn. by rewrite IH. Qed.

Lemma forRange_enqueue_quiet (l : list APIService) w :
  apiHandlerManager (worldOf (forRange l enqueue w)) = apiHandlerManager w
  /\ Forall (fun e => isRouterEvent e = true) (traceOf (forRange l enqueue w)).
Proof.
  rewrite forRange_enqueue. unfold worldOf, traceOf. cbn [fst snd]. split.
  - apply foldl_add_handlers.
  - apply Forall_fmap, Forall_true. done.
Qed.

(** X11.  No event handler ever calls the handler manager, runs a sync or
    takes from the queue: for every payload, each of the six handlers
    leaves the handler manager as it was, and the only things it does are
    adding to the queue and logging. *)
Theorem event_handlers_only_enqueue_and_log c obj other w :
  let quiet (r : Outcome unit * World M Q * list Event) :=
    apiHandlerManager (worldOf r) = apiHandlerManager w
    /\ Forall (fun e => isRouterEvent e = true) (traceOf r) in
  quiet (addAPIService obj w)
  /\ quiet (updateAPIService obj other w)
  /\ quiet (deleteAPIService obj w)
  /\ quiet (addService c obj w)
  /\ quiet (updateService c obj other w)
  /\ quiet (deleteService c obj w).
Proof.
  cbn zeta beta.
  assert (Hregistration : forall r : Outcome unit * World M Q * list Event,
            (exists apiService message,
               r = (Returned tt, withQueue (workqueue.Add (Name apiService)) w,
                    [GlogV4Infof message (Name apiService);
                     CallQueueAdd (Name apiService)]))
            \/ (exists reason, r = (Panicked reason, w, []))
            \/ (exists format, r = (Returned tt, w, [GlogErrorf format])) ->
            apiHandlerManager (worldOf r) = apiHandlerManager w
            /\ Forall (fun e => isRouterEvent e = true) (traceOf r)).
  { intros r [(apiService & message & ->)|[[reason ->]|[format ->]]];
      (split; [reflexivity|]); repeat constructor. }
  assert (Hservice : forall r : Outcome unit * World M Q * list Event,
            (exists l, r = forRange l enqueue w)
            \/ (exists reason, r = (Panicked reason, w, []))
            \/ (exists format, r = (Returned tt, w, [GlogErrorf format])) ->
            apiHandlerManager (worldOf r) = apiHandlerManager w
            /\ Forall (fun e => isRouterEvent e = true) (traceOf r)).
  { intros r [[l ->]|[[reason ->]|[format ->]]];
      [apply forRange_enqueue_quiet|..];
      (split; [reflexivity|]); repeat constructor. }
  split; [apply Hregistration|split; [apply Hregistration|split; [apply Hregistration|
  split; [apply Hservice|split; [apply Hservice|apply Hservice]]]]].
  all: destruct obj as [apiService|service|tombstoneKey tombstoneObj|dynamicType];
    try (left; by eexists _, _); try (left; by eexists);
    try (right; left; by eexists); try (right; right; by eexists).
  all: destruct tombstoneObj as [apiService|service| |];
    try (left; by eexists _, _); try (left; by eexists);
    try (right; left; by eexists); try (right; right; by eexists).
Qed.

Lemma filter_nil_of_all_false {A : Type} (f : A -> bool) (l : list A) :
  (forall x, x ∈ l -> f x = false) -> List.filter f l = [].
Proof.
  induction l as [|x l IH]; intros Hall; [done|]. cbn.
  rewrite (Hall x) by apply list_elem_of_here.
  apply IH. intros y Hy. apply Hall. by apply list_elem_of_further.
Qed.

(** X12.  A service event does nothing at all when no listed registration
    refers to the service, and so when the registration cache lists
    nothing: neither the add, nor the update, nor the delete handler, nor a
    delete by tombstone, makes a call or changes the queue. *)
Theorem service_event_without_referrer_is_noop
    c service other (tombstoneKey : string) w :
  (forall apiService,
     apiService ∈ (listers.List (apiServiceLister c)).1 ->
     Service (Spec apiService) <>
       Some {| ServiceReference.Namespace := api.Namespace service;
               ServiceReference.Name := api.Name service |}) ->
  addService c (cache.ServicePtr service) w = (Returned tt, w, [])
  /\ updateService c (cache.ServicePtr service) other w = (Returned tt, w, [])
  /\ deleteService c (cache.ServicePtr service) w = (Returned tt, w, [])
  /\ deleteService c (cache.DeletedFinalStateUnknown tombstoneKey (cache.ServicePtr service)) w
     = (Returned tt, w, []).
Proof.
  intros Hnone.
  assert (Hfor : getAPIServicesFor c service = []).
  { rewrite getAPIServicesFor_filter. apply filter_nil_of_all_false.
    intros apiService Hin. apply not_true_is_false. rewrite references_spec.
    by apply Hnone. }
  cbn [addService updateService deleteService cache.asService
       cache.asDeletedFinalStateUnknown].
  rewrite Hfor. repeat split.
Qed.

(** X13.  Which registrations a service event reconciles depends on the
    namespace and name of the service and on the registrations the cache
    lists, and on nothing else: not on the type or address of the service,
    and not on an error that [List] reports beside its list, which the scan
    drops. *)
Theorem getAPIServicesFor_depends_on_identity_and_list c c' service service' :
  (listers.List (apiServiceLister c)).1 = (listers.List (apiServiceLister c')).1 ->
  api.Namespace service = api.Namespace service' ->
  api.Name service = api.Name service' ->
  getAPIServicesFor c service = getAPIServicesFor c' service'.
Proof.
  intros Hlist Hns Hname. rewrite !getAPIServicesFor_filter, Hlist.
  apply filter_ext. intros apiService. unfold references.
  by rewrite Hns, Hname.
Qed.

End MoreRouterProperties.

(** ** More on the Run Loop *)

Section MoreRunLoopProperties.
Context {M Q : Type}.
Context `{!APIHandlerManager M, !workqueue.RateLimitingInterface Q}.
Implicit Types (c : APIServiceRegistrationController M Q) (w : World M Q).
Implicit Types (key : string) (t : list Event).

Lemma runWorker_step fuel c w :
  runWorker (S fuel) c w =
    match processNextWorkItem c w with
    | (Returned true, w1, t1) =>
        match runWorker fuel c w1 with
        | (r, w2, t2) => (r, w2, t1 ++ t2)
        end
    | (Returned false, w1, t1) => (Returned (Some tt), w1, t1 ++ [])
    | (Panicked reason, w1, t1) => (Panicked reason, w1, t1)
    end.
Proof.
  cbn [runWorker]. unfold mbind, Ctl_bind, bind.
  by destruct (processNextWorkItem c w) as [[[[|]|reason] w1] t1].
Qed.

(** Calls to the handler manager are none of the calls read off a trace of
    the run loop. *)
Lemma projections_of_handler_calls t :
  Forall (fun e => isHandlerManagerCall e = true) t ->
  syncCalls t = [] /\ deliveredKeys t = [] /\ doneCalls t = []
  /\ settledCalls t = [] /\ shutdownSeen t = [].
Proof.
  induction 1 as [|e t He _ IH]; [done|].
  destruct IH as (? & ? & ? & ? & ?).
  by destruct e.
Qed.

Lemma sync_handler_calls c key w :
  exists err w1 t,
    sync c key w = (Returned err, w1, t)
    /\ Forall (fun e => isHandlerManagerCall e = true) t.
Proof.
  rewrite sync_cases.
  destruct (listers.Get (apiServiceLister c) key) as [apiService|[message|message]];
    [destruct (IsAPIServiceConditionTrue apiService Available)|..];
    eexists _, _, _; (split; [reflexivity|]); repeat constructor.
Qed.

(** One step with [sync] as the sync function, by what [Get] answers. *)
Lemma processNextWorkItem_with_sync c c0 w key quit q' :
  syncFn c = sync c0 ->
  workqueue.Get (queue w) = (key, quit, q') ->
  exists w1 t,
    processNextWorkItem c w = (Returned (negb quit), w1, t)
    /\ syncCalls t = (if quit then [] else [key])
    /\ deliveredKeys t = (if quit then [] else [key])
    /\ doneCalls t = (if quit then [] else [key])
    /\ settledCalls t = (if quit then [] else [key])
    /\ shutdownSeen t = (if quit then [key] else []).
Proof.
  intros Hsync Hget. destruct quit.
  - rewrite (processNextWorkItem_shutdown _ _ _ _ Hget). by eexists _, _.
  - rewrite (processNextWorkItem_delivered _ _ _ _ Hget), Hsync.
    destruct (sync_handler_calls c0 key (withQueue (fun _ => q') w))
      as (err & w1 & t & -> & Ht).
    apply projections_of_handler_calls in Ht as (Hs & Hg & Hd & Hf & Hq).
    destruct err as [err|]; eexists _, _; (split; [reflexivity|]);
      unfold syncCalls, deliveredKeys, doneCalls, settledCalls, shutdownSeen in *;
      cbn [app omap list_omap]; rewrite !omap_app, Hs, Hg, Hd, Hf, Hq; done.
Qed.

(** X14.  With [sync] as the sync function, one step of the run loop
    returns false exactly when [Get] reports the shutdown of the queue, and
    true otherwise, whether the sync fails or not.  On the shutdown it
    calls neither the sync function nor [Done], and nothing else after
    [Get]. *)
Theorem processNextWorkItem_stops_only_on_shutdown c c0 w key quit q' :
  syncFn c = sync c0 ->
  workqueue.Get (queue w) = (key, quit, q') ->
  outcomeOf (processNextWorkItem c w) = Returned (negb quit)
  /\ (quit = true ->
      processNextWorkItem c w
      = (Returned false, withQueue (fun _ => q') w, [CallQueueGet key true])).
Proof.
  intros Hsync Hget. split.
  - destruct (processNextWorkItem_with_sync _ _ _ _ _ _ Hsync Hget)
      as (w1 & t & -> & _). reflexivity.
  - intros ->. by apply processNextWorkItem_shutdown.
Qed.

(** A run of the worker with [sync] as the sync function, read off by
    induction on the bound: what it returns and the calls it made. *)
Lemma runWorker_with_sync c c0 fuel w :
  syncFn c = sync c0 ->
  exists r w' t,
    runWorker fuel c w = (Returned r, w', t)
    /\ syncCalls t = deliveredKeys t
    /\ doneCalls t = deliveredKeys t
    /\ settledCalls t = deliveredKeys t
    /\ (r = Some tt ->
        length (shutdownSeen t) = 1 /\ length (deliveredKeys t) < fuel)
    /\ (r = None ->
        shutdownSeen t = [] /\ length (deliveredKeys t) = fuel).
Proof.
  intros Hsync. revert w. induction fuel as [|fuel IH]; intros w.
  { exists None, w, []. repeat split; done. }
  rewrite runWorker_step.
  destruct (workqueue.Get (queue w)) as [[key quit] q'] eqn:Hget.
  destruct (processNextWorkItem_with_sync _ _ _ _ _ _ Hsync Hget)
    as (w1 & t1 & -> & Hs1 & Hg1 & Hd1 & Hf1 & Hq1).
  destruct quit; cbn [negb].
  - exists (Some tt), w1, (t1 ++ []). rewrite app_nil_r.
    rewrite Hs1, Hg1, Hd1, Hf1, Hq1. repeat split; try done.
    cbn. lia.
  - destruct (IH w1) as (r & w' & t & -> & Hs & Hd & Hf & Hdone & Hcut).
    exists r, w', (t1 ++ t). split; [reflexivity|].
    unfold syncCalls, deliveredKeys, doneCalls, settledCalls, shutdownSeen in *.
    rewrite !omap_app, Hs1, Hg1, Hd1, Hf1, Hq1, Hs, Hd, Hf.
    split; [done|]. split; [done|]. split; [done|]. cbn [app length]. split.
    + intros Hr. destruct (Hdone Hr) as [Hone Hlt]. split; [exact Hone|lia].
    + intros Hr. destruct (Hcut Hr) as [Hnil Hlen]. split; [exact Hnil|lia].
Qed.

(** X15.  With [sync] as the sync function, on a queue that hands out
    string keys as the controller adds them, in every run of the worker,
    complete or cut short by the bound on its iterations, the keys it
    called the sync function for, the keys it called [Done] for, and the
    keys it settled with a [Forget] or an [AddRateLimited] are each exactly
    the keys that [Get] delivered, in the order of delivery.  A run that
    returned has seen exactly one report of the shutdown; a run that was
    cut short has seen none, and has taken one key per iteration. *)
Theorem runWorker_settles_every_delivered_key c c0 fuel w outcome w' t :
  syncFn c = sync c0 ->
  runWorker fuel c w = (outcome, w', t) ->
  syncCalls t = deliveredKeys t
  /\ doneCalls t = deliveredKeys t
  /\ settledCalls t = deliveredKeys t
  /\ (outcome = Returned (Some tt) ->
      length (shutdownSeen t) = 1 /\ length (deliveredKeys t) < fuel)
  /\ (outcome = Returned None ->
      shutdownSeen t = [] /\ length (deliveredKeys t) = fuel).
Proof.
  intros Hsync Hrun.
  destruct (runWorker_with_sync c c0 fuel w Hsync)
    as (r & w0 & t0 & Hrun0 & Hs & Hd & Hf & Hdone & Hcut).
  rewrite Hrun0 in Hrun. injection Hrun as <- <- <-.
  split; [exact Hs|]. split; [exact Hd|]. split; [exact Hf|]. split.
  - intros [= ->]. by apply Hdone.
  - intros [= ->]. by apply Hcut.
Qed.

(** The bound on the iterations of the worker only cuts runs short: a run
    that ended, by the shutdown of the queue or by a panic, is the run of
    the worker under every larger bound, whatever function is injected as
    the sync function. *)
Lemma runWorker_more_fuel_same_run c fuel fuel' w r w' t :
  runWorker fuel c w = (r, w', t) ->
  r <> Returned None ->
  fuel <= fuel' ->
  runWorker fuel' c w = (r, w', t).
Proof.
  revert fuel' w r w' t. induction fuel as [|fuel IH]; intros fuel' w r w' t Hrun Hended Hle.
  { cbn in Hrun. injection Hrun as <- <- <-. done. }
  destruct fuel' as [|fuel']; [lia|].
  rewrite runWorker_step in *.
  destruct (processNextWorkItem c w) as [[[[|]|reason] w1] t1]; [|done..].
  destruct (runWorker fuel c w1) as [[r2 w2] t2] eqn:Hrest.
  injection Hrun as <- <- <-.
  by rewrite (IH fuel' w1 r2 w2 t2 Hrest Hended ltac:(lia)).
Qed.

(** X18.  One step of the run loop of the controller that the constructor
    builds, when [Get] delivers [key], by what the registration cache
    answers for [key].  Not found, or found and not available: the step
    calls [RemoveAPIService(key)], then [Forget] and [Done].  Found and
    available: it calls [AddAPIService] with the resolved destination, then
    [Forget] and [Done].  Any other lookup error: it calls the handler
    manager not at all, reports the error, puts the key back with
    [AddRateLimited], and calls [Done].  The step returns true in each
    case. *)
Theorem processNextWorkItem_of_new_controller
    (registrations : listers.APIServiceLister) (services : internallisters.ServiceLister)
    w key q' :
  workqueue.Get (queue w) = (key, false, q') ->
  let c := NewAPIServiceRegistrationController (M:=M) (Q:=Q) registrations services in
  let w1 := withQueue (fun _ => q') w in
  let settled (f : M -> M) (call : Event) : Outcome bool * World M Q * list Event :=
    (Returned true,
     withQueue (workqueue.Done key) (withQueue (workqueue.Forget key) (withHandlers f w1)),
     [CallQueueGet key false; CallSyncFn key; call;
      CallQueueForget key; CallQueueDone key]) in
  processNextWorkItem c w =
    match listers.Get registrations key with
    | inr (ErrNotFound _) => settled (RemoveAPIService key) (CallRemoveAPIService key)
    | inr err =>
        (Returned true,
         withQueue (workqueue.Done key) (withQueue (workqueue.AddRateLimited key) w1),
         [CallQueueGet key false; CallSyncFn key; CallHandleError key err;
          CallQueueAddRateLimited key; CallQueueDone key])
    | inl apiService =>
        if IsAPIServiceConditionTrue apiService Available
        then settled (AddAPIService apiService (getDestinationHost c apiService))
               (CallAddAPIService apiService (getDestinationHost c apiService))
        else settled (RemoveAPIService key) (CallRemoveAPIService key)
    end.
Proof.
  intros Hget. cbn zeta.
  rewrite (processNextWorkItem_delivered _ _ _ _ Hget).
  cbn [syncFn NewAPIServiceRegistrationController]. rewrite sync_cases.
  cbn [apiServiceLister].
  destruct (listers.Get registrations key) as [apiService|[message|message]];
    [destruct (IsAPIServiceConditionTrue apiService Available)|..]; reflexivity.
Qed.

End MoreRunLoopProperties.

Section MoreScriptedRunProperties.
Context {M : Type}.
Context `{!APIHandlerManager M}.
Implicit Types (c : APIServiceRegistrationController M (list string)).

(** What [sync] does to the handler manager and what it returns do not
    depend on the world it starts from. *)
Lemma sync_uniform c key :
  exists err (f : M -> M) t,
    Forall (fun e => isHandlerManagerCall e = true) t
    /\ forall w, sync c key w = (Returned err, withHandlers f w, t).
Proof.
  destruct (listers.Get (apiServiceLister c) key) as [apiService|[message|message]] eqn:Hget;
    [destruct (IsAPIServiceConditionTrue apiService Available) eqn:Hcond|..].
  - eexists None, _, _. split; [|intros w; rewrite sync_cases, Hget, Hcond; reflexivity].
    repeat constructor.
  - eexists None, _, _. split; [|intros w; rewrite sync_cases, Hget, Hcond; reflexivity].
    repeat constructor.
  - eexists None, _, _. split; [|intros w; rewrite sync_cases, Hget; reflexivity].
    repeat constructor.
  - exists (Some (ErrOther message)), (fun m => m), []. split; [constructor|].
    intros w. rewrite sync_cases, Hget. by destruct w.
Qed.

Lemma filter_handler_calls (t : list Event) :
  Forall (fun e => isHandlerManagerCall e = true) t ->
  List.filter isHandlerManagerCall t = t.
Proof.
  induction 1 as [|e t He _ IH]; [done|]. cbn. by rewrite He, IH.
Qed.

(** X17.  On a queue that delivers [keys] and then shuts down, the worker
    with [sync] as the sync function does to the handler manager what the
    consecutive syncs of these keys do: it returns, it leaves the handler
    manager in the same state, and its calls to the handler manager are
    the calls of those syncs, in the same order. *)
Theorem runWorker_is_syncAll_of_script c c0 (keys : list string) (m : M) :
  syncFn c = sync c0 ->
  let loop := runWorker (S (length keys)) c {| apiHandlerManager := m; queue := keys |} in
  let syncs := syncAll ((fun key => (c0, key)) <$> keys)
                 {| apiHandlerManager := m; queue := [] |} in
  outcomeOf loop = Returned (Some tt)
  /\ apiHandlerManager (worldOf loop) = apiHandlerManager (worldOf syncs)
  /\ List.filter isHandlerManagerCall (traceOf loop) = traceOf syncs.
Proof.
  intros Hsync. cbn zeta. revert m. induction keys as [|key keys IH]; intros m.
  - rewrite runWorker_step.
    rewrite (processNextWorkItem_shutdown _ _ "" []) by reflexivity.
    done.
  - cbn [length]. rewrite runWorker_step.
    rewrite (processNextWorkItem_delivered _ _ key keys) by reflexivity.
    rewrite Hsync, fmap_cons, syncAll_cons.
    destruct (sync_uniform c0 key) as (err & f & t1 & Ht1 & Hrun).
    rewrite !Hrun.
    specialize (IH (f m)). destruct IH as (Hout & Hworld & Htrace).
    unfold withQueue, withHandlers.
    cbn [apiHandlerManager queue
         workqueue.Done workqueue.Forget workqueue.AddRateLimited scriptedQueue].
    destruct (syncAll ((fun key0 => (c0, key0)) <$> keys)
                {| apiHandlerManager := f m; queue := [] |}) as [[[errs|reason] w2] t2] eqn:Hsyncs.
    + destruct err as [err|];
        destruct (runWorker (S (length keys)) c {| apiHandlerManager := f m; queue := keys |})
          as [[r w'] t] eqn:Hloop;
        unfold outcomeOf, worldOf, traceOf in *; cbn [fst snd] in *;
        (split; [exact Hout|]); (split; [exact Hworld|]);
        cbn [app List.filter isHandlerManagerCall];
        rewrite !List.filter_app, (filter_handler_calls _ Ht1); cbn [List.filter isHandlerManagerCall app];
        by rewrite Htrace, app_nil_r.
    + exfalso.
      assert (Hnever : forall steps w,
                outcomeOf (syncAll (M:=M) (Q:=list string) steps w) <> Panicked reason).
      { clear. intros steps. induction steps as [|[c1 key1] steps IHs]; intros w; [done|].
        rewrite syncAll_cons.
        destruct (sync_uniform c1 key1) as (err1 & f1 & t & _ & ->).
        specialize (IHs (withHandlers f1 w)).
        by destruct (syncAll steps (withHandlers f1 w)) as [[[errs|reason'] w2] t2]. }
      apply (Hnever ((fun key0 => (c0, key0)) <$> keys)
               {| apiHandlerManager := f m; queue := [] |}).
      by rewrite Hsyncs.
Qed.

End MoreScriptedRunProperties.

(** ** The further properties at work on the example objects *)

Lemma sync_available_registration_adds_witness :
  lookupFinds (controllerOf [R1] [svcA]) "R1" R1
  /\ IsAPIServiceConditionTrue R1 Available = true
  /\ sync (controllerOf [R1] [svcA]) "R1" emptyWorld
     = (Returned None, withHandlers (AddAPIService R1 "1.2.3.4") emptyWorld,
        [CallAddAPIService R1 "1.2.3.4"]).
Proof.
  split; [reflexivity|]. split; [reflexivity|].
  exact (proj1 (sync_available_registration_adds
                  (controllerOf [R1] [svcA]) "R1" R1 emptyWorld eq_refl eq_refl)).
Defined.

Lemma sync_result_ignores_service_cache_witness :
  apiServiceLister (controllerOf [R1] [svcA]) = apiServiceLister (controllerOf [R1] [])
  /\ outcomeOf (sync (controllerOf [R1] [svcA]) "R1" emptyWorld)
     = outcomeOf (sync (controllerOf [R1] []) "R1" staleWorld).
Proof.
  split; [reflexivity|].
  exact (sync_result_ignores_service_cache
           (controllerOf [R1] [svcA]) (controllerOf [R1] []) "R1" emptyWorld staleWorld
           eq_refl).
Defined.

Lemma sync_one_handler_call_spares_queue_witness :
  outcomeOf (sync (controllerOf [R1] [svcA]) "R1" scriptedWorld) = Returned None
  /\ exists e,
       traceOf (sync (controllerOf [R1] [svcA]) "R1" scriptedWorld) = [e]
       /\ isHandlerManagerCall e = true.
Proof.
  split; [reflexivity|].
  exact (proj1 (proj2 (sync_one_handler_call_spares_queue
                         (controllerOf [R1] [svcA]) "R1" scriptedWorld)) eq_refl).
Defined.

Lemma sync_sets_entry_from_current_state_witness :
  coherent (controllerOf [R1] [svcA])
  /\ outcomeOf (sync (controllerOf [R1] [svcA]) "R1" staleWorld) = Returned None
  /\ apiHandlerManager (worldOf (sync (controllerOf [R1] [svcA]) "R1" staleWorld)) !! "R1"
     = Some "1.2.3.4".
Proof.
  split; [apply controllerOf_coherent|]. split; [reflexivity|].
  exact (proj1 (sync_sets_entry_from_current_state
                  (controllerOf [R1] [svcA]) "R1" staleWorld
                  (controllerOf_coherent [R1] [svcA])) eq_refl).
Defined.

Lemma sync_distinct_keys_commute_witness :
  coherent (controllerOf [R1] [svcA])
  /\ coherent (controllerOf [R2] [])
  /\ "R1" <> "R2"
  /\ worldOf (sync (controllerOf [R2] []) "R2"
                (worldOf (sync (controllerOf [R1] [svcA]) "R1" staleWorld)))
     = worldOf (sync (controllerOf [R1] [svcA]) "R1"
                  (worldOf (sync (controllerOf [R2] []) "R2" staleWorld))).
Proof.
  assert (Hne : "R1" <> "R2") by discriminate.
  split; [apply controllerOf_coherent|]. split; [apply controllerOf_coherent|].
  split; [exact Hne|].
  exact (sync_distinct_keys_commute
           (controllerOf [R1] [svcA]) (controllerOf [R2] []) "R1" "R2" staleWorld
           (controllerOf_coherent [R1] [svcA]) (controllerOf_coherent [R2] []) Hne).
Defined.

Lemma registered_destination_is_last_resolved_witness :
  Forall (fun step => coherent step.1) (take 1 installThenDelete)
  /\ exists errs,
       outcomeOf (syncAll (take 1 installThenDelete) emptyWorld) = Returned errs
       /\ (apiHandlerManager (worldOf (syncAll (take 1 installThenDelete) emptyWorld)) !! "R1"
             = Some "1.2.3.4" <->
           exists i c apiService,
             lastSuccessfulSync (take 1 installThenDelete) errs "R1" i c
             /\ lookupFinds c "R1" apiService
             /\ IsAPIServiceConditionTrue apiService Available = true
             /\ "1.2.3.4" = getDestinationHost c apiService).
Proof.
  assert (Hsteps : Forall (fun step => coherent step.1) (take 1 installThenDelete))
    by (repeat constructor; apply controllerOf_coherent).
  split; [exact Hsteps|].
  exact (registered_destination_is_last_resolved
           (take 1 installThenDelete) [] "R1" "1.2.3.4" Hsteps).
Defined.

Lemma getDestinationHost_empty_iff_witness :
  usesClusterIP svcA_noIP
  /\ getDestinationHost (controllerOf [R1] [svcA_noIP]) R1 = "".
Proof.
  assert (Htype : usesClusterIP svcA_noIP) by apply list_elem_of_here.
  split; [exact Htype|].
  apply (proj2 (getDestinationHost_empty_iff (controllerOf [R1] [svcA_noIP]) R1)).
  right. exists svcA_ref, svcA_noIP.
  split; [reflexivity|]. split; [reflexivity|]. split; [exact Htype|reflexivity].
Defined.

Lemma registration_add_update_enqueue_or_panic_witness :
  updateAPIService (cache.APIServicePtr R1) (cache.APIServicePtr R2) emptyWorld
  = (Returned tt, withQueue (workqueue.Add "R1") emptyWorld,
     [GlogV4Infof "Updating %s" "R1"; CallQueueAdd "R1"]).
Proof.
  exact (proj2 (proj1 (registration_add_update_enqueue_or_panic
                         (cache.APIServicePtr R1) (cache.APIServicePtr R2) emptyWorld)
                  R1 eq_refl)).
Defined.

Lemma service_add_update_agree_and_panic_on_other_payload_witness :
  (forall service,
     cache.DeletedFinalStateUnknown "ns1/svcA" (cache.ServicePtr svcA)
     <> cache.ServicePtr service)
  /\ exists reason,
       addService (controllerOf [R1] [svcA])
         (cache.DeletedFinalStateUnknown "ns1/svcA" (cache.ServicePtr svcA)) emptyWorld
       = (Panicked reason, emptyWorld, []).
Proof.
  assert (Hother : forall service,
            cache.DeletedFinalStateUnknown "ns1/svcA" (cache.ServicePtr svcA)
            <> cache.ServicePtr service) by discriminate.
  split; [exact Hother|].
  exact (proj1 (proj2 (service_add_update_agree_and_panic_on_other_payload
                         (controllerOf [R1] [svcA])
                         (cache.DeletedFinalStateUnknown "ns1/svcA" (cache.ServicePtr svcA))
                         (cache.Other "new") emptyWorld)) Hother).
Defined.

Lemma service_event_without_referrer_is_noop_witness :
  (forall apiService,
     apiService ∈ (listers.List (apiServiceLister (controllerOf [R2; Rlocal] [svcA]))).1 ->
     Service (Spec apiService) <>
       Some {| ServiceReference.Namespace := api.Namespace svcA;
               ServiceReference.Name := api.Name svcA |})
  /\ addService (controllerOf [R2; Rlocal] [svcA]) (cache.ServicePtr svcA) emptyWorld
     = (Returned tt, emptyWorld, []).
Proof.
  assert (Hnone : forall apiService,
            apiService ∈ (listers.List (apiServiceLister (controllerOf [R2; Rlocal] [svcA]))).1 ->
            Service (Spec apiService) <>
              Some {| ServiceReference.Namespace := api.Namespace svcA;
                      ServiceReference.Name := api.Name svcA |}).
  { intros apiService Hin. cbn in Hin.
    apply elem_of_cons in Hin as [->|Hin]; [discriminate|].
    apply elem_of_cons in Hin as [->|Hin]; [discriminate|].
    by apply elem_of_nil in Hin. }
  split; [exact Hnone|].
  exact (proj1 (service_event_without_referrer_is_noop
                  (controllerOf [R2; Rlocal] [svcA]) svcA (cache.Other "new") "ns1/svcA"
                  emptyWorld Hnone)).
Defined.

Lemma getAPIServicesFor_depends_on_identity_and_list_witness :
  (listers.List (apiServiceLister (controllerOf [R1; R2] [svcA]))).1
  = (listers.List (apiServiceLister (controllerOf [R1; R2] []))).1
  /\ api.Namespace svcA = api.Namespace svcA_external
  /\ api.Name svcA = api.Name svcA_external
  /\ getAPIServicesFor (controllerOf [R1; R2] [svcA]) svcA
     = getAPIServicesFor (controllerOf [R1; R2] []) svcA_external.
Proof.
  split; [reflexivity|]. split; [reflexivity|]. split; [reflexivity|].
  exact (getAPIServicesFor_depends_on_identity_and_list
           (controllerOf [R1; R2] [svcA]) (controllerOf [R1; R2] []) svcA svcA_external
           eq_refl eq_refl eq_refl).
Defined.

Lemma processNextWorkItem_stops_only_on_shutdown_witness :
  syncFn (controllerOf [R1] [svcA]) = sync (controllerOf [R1] [svcA])
  /\ workqueue.Get (queue emptyWorld) = ("", true, [])
  /\ outcomeOf (processNextWorkItem (controllerOf [R1] [svcA]) emptyWorld) = Returned false.
Proof.
  split; [reflexivity|]. split; [reflexivity|].
  exact (proj1 (processNextWorkItem_stops_only_on_shutdown
                  (controllerOf [R1] [svcA]) (controllerOf [R1] [svcA]) emptyWorld
                  "" true [] eq_refl eq_refl)).
Defined.

Lemma runWorker_settles_every_delivered_key_witness :
  syncFn (failingController (ErrOther "timeout")) = sync (failingController (ErrOther "timeout"))
  /\ runWorker 3 (failingController (ErrOther "timeout")) scriptedWorld
     = (Returned (Some tt), emptyWorld,
        [CallQueueGet "R1" false; CallSyncFn "R1";
         CallHandleError "R1" (ErrOther "timeout");
         CallQueueAddRateLimited "R1"; CallQueueDone "R1";
         CallQueueGet "Rlocal" false; CallSyncFn "Rlocal";
         CallHandleError "Rlocal" (ErrOther "timeout");
         CallQueueAddRateLimited "Rlocal"; CallQueueDone "Rlocal";
         CallQueueGet "" true])
  /\ doneCalls
       [CallQueueGet "R1" false; CallSyncFn "R1";
        CallHandleError "R1" (ErrOther "timeout");
        CallQueueAddRateLimited "R1"; CallQueueDone "R1";
        CallQueueGet "Rlocal" false; CallSyncFn "Rlocal";
        CallHandleError "Rlocal" (ErrOther "timeout");
        CallQueueAddRateLimited "Rlocal"; CallQueueDone "Rlocal";
        CallQueueGet "" true]
     = ["R1"; "Rlocal"].
Proof.
  split; [reflexivity|]. split; [reflexivity|].
  exact (proj1 (proj2 (runWorker_settles_every_delivered_key
                         (failingController (ErrOther "timeout"))
                         (failingController (ErrOther "timeout"))
                         3 scriptedWorld _ _ _ eq_refl eq_refl))).
Defined.

Lemma runWorker_drains_script_witness :
  syncFn (controllerOf [R1] [svcA]) = sync (controllerOf [R1] [svcA])
  /\ exists w' t,
       runWorker 3 (controllerOf [R1] [svcA]) scriptedWorld = (Returned (Some tt), w', t)
       /\ queue w' = []
       /\ syncCalls t = ["R1"; "Rlocal"].
Proof.
  split; [reflexivity|].
  exact (runWorker_drains_script
           (controllerOf [R1] [svcA]) (controllerOf [R1] [svcA]) ["R1"; "Rlocal"] ∅ eq_refl).
Defined.

Lemma runWorker_is_syncAll_of_script_witness :
  syncFn (controllerOf [R1; Rlocal] [svcA]) = sync (controllerOf [R1; Rlocal] [svcA])
  /\ List.filter isHandlerManagerCall
       (traceOf (runWorker 3 (controllerOf [R1; Rlocal] [svcA]) scriptedWorld))
     = traceOf (syncAll ((fun key => (controllerOf [R1; Rlocal] [svcA], key))
                           <$> ["R1"; "Rlocal"]) emptyWorld).
Proof.
  split; [reflexivity|].
  exact (proj2 (proj2 (runWorker_is_syncAll_of_script
                         (controllerOf [R1; Rlocal] [svcA]) (controllerOf [R1; Rlocal] [svcA])
                         ["R1"; "Rlocal"] ∅ eq_refl))).
Defined.

Example scripted_run_installs_both :
  apiHandlerManager (worldOf (runWorker 3 (controllerOf [R1; Rlocal] [svcA]) scriptedWorld))
  = {[ "R1" := "1.2.3.4"; "Rlocal" := "" ]}.
Proof. vm_compute. reflexivity. Qed.

Lemma processNextWorkItem_of_new_controller_witness :
  workqueue.Get (queue (withQueue (fun _ => ["R1"]) emptyWorld)) = ("R1", false, [])
  /\ processNextWorkItem (failingController (ErrOther "timeout"))
       (withQueue (fun _ => ["R1"]) emptyWorld)
     = (Returned true, emptyWorld,
        [CallQueueGet "R1" false; CallSyncFn "R1";
         CallHandleError "R1" (ErrOther "timeout");
         CallQueueAddRateLimited "R1"; CallQueueDone "R1"]).
Proof.
  split; [reflexivity|].
  exact (processNextWorkItem_of_new_controller
           (failingAPIServiceLister (ErrOther "timeout")) (serviceListerOf [])
           (withQueue (fun _ => ["R1"]) emptyWorld) "R1" [] eq_refl).
Defined.
